(** * ZooKeeper charm: key material, keystores and configuration synthesis

    A shallow embedding of [src/charm.py] (class [ZookeeperCharm]) and the
    properties of its TLS material handling and of the rendering of
    [zookeeper.properties].

    The charm is an imperative Python object: its methods read the charm
    configuration, read and write the stored state [self.ks], draw random
    passwords and call collaborators that write files or publish relation
    data.  The embedding threads an explicit [world] through a state monad
    whose computations either return or raise a Python exception; in both
    cases the mutations done so far stay in the world. *)

From Stdlib Require Import ZArith String List Lia.
From stdpp Require Import base option gmap strings list pretty.

Open Scope string_scope.

(** ** Python values held by the configuration and by relation data *)

(** Juju configuration options are strings, integers or booleans. *)
Inductive value :=
| VStr (s : string)
| VInt (n : Z)
| VBool (b : bool).

Global Instance value_eq_dec : EqDecision value.
Proof. solve_decision. Defined.

(** Truthiness, as used by [if x:] and [x or y]. *)
Definition truthy (v : value) : bool :=
  match v with
  | VStr s => negb (String.eqb s "")
  | VInt n => negb (n =? 0)%Z
  | VBool b => b
  end.

(** ["{}".format(v)] *)
Definition format (v : value) : string :=
  match v with
  | VStr s => s
  | VInt n => pretty n
  | VBool true => "True"
  | VBool false => "False"
  end.

(** What [yaml.safe_load] can return, as far as the charm looks at it: a
    mapping (whose items keep document order) or anything else. *)
Inductive yaml :=
| YMap (items : list (string * value))
| YOther.

(** Exceptions that the modelled statements can raise. *)
Inductive exn :=
| KeyError (key : string)
| AttributeError (attr : string)
| TypeError (what : string)
| IndexError
| ValueError (what : string).

Global Instance exn_eq_dec : EqDecision exn.
Proof. solve_decision. Defined.

Inductive result (A : Type) :=
| Ok (a : A)
| Raise (e : exn).
Arguments Ok {A} a.
Arguments Raise {A} e.

(** ** Insertion-ordered dictionaries

    [zk_props] is a Python [dict]: iteration follows insertion order, and
    assigning to an existing key keeps the key's position. *)
Definition props := list (string * value).

Fixpoint dict_set (k : string) (v : value) (d : props) : props :=
  match d with
  | [] => [(k, v)]
  | (k', v') :: d' =>
      if String.eqb k k' then (k, v) :: d' else (k', v') :: dict_set k v d'
  end.

Fixpoint dict_get (k : string) (d : props) : option value :=
  match d with
  | [] => None
  | (k', v') :: d' => if String.eqb k k' then Some v' else dict_get k d'
  end.

Definition keys (d : props) : list string := d.*1.

(** ** Effects *)

(** The context handed to the template renderer. *)
Inductive context :=
| CtxZkProps (zk_props : props)
| CtxRootLogger (root_logger : value).

(** Calls into collaborators, recorded with their arguments. The constant
    [mode=0o640] / [perms=0o640] arguments are not recorded. *)
Inductive event :=
| CallGenerateSelfSigned (folder certname : string) (user group : value)
| CallPKCS12CreateKeystore (path : value) (password cert key : string)
    (user group : value) (chain_path key_path p12_path : string)
| CallSetMTLSAuth (cert : value) (ts_path : value) (ts_pwd : string)
| CallSetSslKeypair (cert : string) (ts_path : value) (ts_pwd : string)
    (user group : value)
| CallRender (source target : string) (owner group : option value)
    (ctx : context)
| CallRenderServiceOverrideFile
| CallServiceReload (svc : string)
| CallServiceRestart (svc : string)
| CallMakedirs (path : string).

(** The mutable state a hook runs against.
    - [ks]: the stored state [self.ks] (every field the charm writes is a
      string);
    - [service]: the attribute [self.service], unset until assigned;
    - [seed]: how many random draws have been made;
    - [trace]: collaborator calls, most recent first. *)
Record world := World {
  ks : gmap string string;
  service : option string;
  seed : nat;
  trace : list event
}.

Definition M (A : Type) : Type := world → result A * world.

Definition ret {A} (a : A) : M A := λ w, (Ok a, w).
Definition raise {A} (e : exn) : M A := λ w, (Raise e, w).
Definition bind {A B} (m : M A) (f : A → M B) : M B :=
  λ w, match m w with
       | (Ok a, w') => f a w'
       | (Raise e, w') => (Raise e, w')
       end.

Declare Scope py_scope.
Delimit Scope py_scope with py.
Notation "'let*' x ':=' c1 'in' c2" := (bind c1 (λ x, c2))
  (at level 10, x pattern, c1 at level 100, c2 at level 200) : py_scope.
Notation "c1 ';;' c2" := (bind c1 (λ _, c2))
  (at level 100, c2 at level 200, right associativity) : py_scope.
Open Scope py_scope.

(** Lifting of a pure, possibly failing evaluation. *)
Definition lift {A} (r : result A) : M A := λ w, (r, w).

(** [self.ks.attr]: reading a field that was never stored raises. *)
Definition ks_get (attr : string) : M string :=
  λ w, match ks w !! attr with
       | Some s => (Ok s, w)
       | None => (Raise (AttributeError attr), w)
       end.

(** [self.ks.attr = s] *)
Definition ks_set (attr : string) (s : string) : M unit :=
  λ w, (Ok tt, World (<[attr := s]> (ks w)) (service w) (seed w) (trace w)).

(** [self.ks.set_default(attr=s)]: only stores when the field is absent. *)
Definition ks_set_default (attr : string) (s : string) : M unit :=
  λ w, match ks w !! attr with
       | Some _ => (Ok tt, w)
       | None => ks_set attr s w
       end.

Definition call (e : event) : M unit :=
  λ w, (Ok tt, World (ks w) (service w) (seed w) (e :: trace w)).

Definition draw : M nat :=
  λ w, (Ok (seed w), World (ks w) (service w) (S (seed w)) (trace w)).

Definition set_service (svc : string) : M unit :=
  λ w, (Ok tt, World (ks w) (Some svc) (seed w) (trace w)).

Definition get_service : M string :=
  λ w, match service w with
       | Some s => (Ok s, w)
       | None => (Raise (AttributeError "service"), w)
       end.

(** [a and b] on conditions with effects: [b] runs only when [a] holds. *)
Definition andM (a b : M bool) : M bool :=
  let* x := a in if x then b else ret false.

(** ** Configuration access *)

(** [self.config[key]] *)
Definition config_item (cfg : gmap string value) (key : string) : M value :=
  match cfg !! key with
  | Some v => ret v
  | None => raise (KeyError key)
  end.

(** [self.config.get(key, dflt)] *)
Definition config_get (cfg : gmap string value) (key : string) (dflt : value)
  : value :=
  default dflt (cfg !! key).

(** ** Collaborators outside the charm

    Library code the charm calls and whose results it uses.
    - [b64decode_ascii v] is [base64.b64decode(v).decode("ascii")];
    - [generateSelfSigned folder certname user group n] is the certificate
      and key produced by [wand.security.ssl.generateSelfSigned] on the
      [n]-th random draw;
    - [genRandomPassword len n] is the password produced on the [n]-th
      draw, [len] being the optional length argument;
    - [yaml_safe_load v] is [yaml.safe_load(v)];
    - [unit_folder], [distro]: attributes of the base class;
    - [service_running svc]: [charmhelpers.core.host.service_running]. *)
Class Collaborators := {
  b64decode_ascii : value → result string;
  generateSelfSigned : string → string → value → value → nat → string * string;
  genRandomPassword : option nat → nat → string;
  yaml_safe_load : value → result yaml;
  unit_folder : string;
  distro : string;
  service_running : string → bool
}.

Section Charm.
Context `{Collaborators}.
Variable cfg : gmap string value.

(** *** Accessors for the key material *)

Definition get_ssl_cert : M string :=
  let* g := config_item cfg "generate-root-ca" in
  if truthy g then ks_get "ssl_cert"
  else let* v := config_item cfg "ssl_cert" in lift (b64decode_ascii v).

Definition get_ssl_key : M string :=
  let* g := config_item cfg "generate-root-ca" in
  if truthy g then ks_get "ssl_key"
  else let* v := config_item cfg "ssl_key" in lift (b64decode_ascii v).

Definition get_quorum_cert : M string :=
  let* g := config_item cfg "generate-root-ca" in
  if truthy g then ks_get "quorum_cert"
  else let* v := config_item cfg "ssl-quorum-cert" in lift (b64decode_ascii v).

Definition get_quorum_key : M string :=
  let* g := config_item cfg "generate-root-ca" in
  if truthy g then ks_get "quorum_key"
  else let* v := config_item cfg "ssl-quorum-key" in lift (b64decode_ascii v).

(** *** Keystore and truststore paths *)

Definition get_ssl_keystore : value :=
  config_get cfg "keystore-path" (VStr "/var/ssl/private/kafka_ssl_ks.jks").

Definition get_ssl_truststore : value :=
  config_get cfg "truststore-path" (VStr "/var/ssl/private/kafka_ssl_ks.jks").

Definition get_quorum_keystore : value :=
  config_get cfg "quorum-keystore-path"
    (VStr "/var/ssl/private/kafka_quorum_ks.jks").

Definition get_quorum_truststore : value :=
  config_get cfg "quorum-truststore-path"
    (VStr "/var/ssl/private,kafka_quorum_ts.jks").

(** *** [_generate_keystores] *)

(** [len(self.ks.attr) > 0] *)
Definition ks_nonempty (attr : string) : M bool :=
  let* s := ks_get attr in ret (0 <? String.length s)%nat.

(** [self.ks.attr == getter()] *)
Definition ks_same (attr : string) (getter : M string) : M bool :=
  let* s := ks_get attr in
  let* t := getter in
  ret (String.eqb s t).

(** [genRandomPassword()] and [genRandomPassword(6)] *)
Definition gen_password (len : option nat) : M string :=
  let* n := draw in ret (genRandomPassword len n).

(** [generateSelfSigned(self.unit_folder, certname=..., user=..., group=...,
    mode=0o640)] *)
Definition self_signed (certname : string) : M (string * string) :=
  let* user := config_item cfg "user" in
  let* group := config_item cfg "group" in
  let* n := draw in
  call (CallGenerateSelfSigned unit_folder certname user group);;
  ret (generateSelfSigned unit_folder certname user group n).

(** The two blocks that build a keystore: a fresh password is stored in
    [pwd_attr], a second draw names the staging files, and the packaging
    collaborator writes the keystore to [path]. *)
Definition build_keystore (pwd_attr : string) (path : value)
    (get_cert get_key : M string) : M unit :=
  let* pwd := gen_password None in
  ks_set pwd_attr pwd;;
  let* filename := gen_password (Some 6) in
  let* pwd' := ks_get pwd_attr in
  let* cert := get_cert in
  let* key := get_key in
  let* user := config_item cfg "user" in
  let* group := config_item cfg "group" in
  call (CallPKCS12CreateKeystore path pwd' cert key user group
          ("/tmp/" +:+ filename +:+ ".chain")
          ("/tmp/" +:+ filename +:+ ".key")
          ("/tmp/" +:+ filename +:+ ".p12")).

(** Lines 119-123: with [generate-root-ca] set, all four stored fields are
    already populated. *)
Definition already_generated : M bool :=
  let* g := config_item cfg "generate-root-ca" in
  if truthy g then
    andM (ks_nonempty "quorum_cert")
      (andM (ks_nonempty "quorum_key")
         (andM (ks_nonempty "ssl_cert") (ks_nonempty "ssl_key")))
  else ret false.

(** Lines 126-137: two self-signed root CAs. *)
Definition generate_root_cas : M unit :=
  let* qm := self_signed "quorum-zookeeper-root-ca" in
  ks_set "quorum_cert" qm.1;;
  ks_set "quorum_key" qm.2;;
  let* sm := self_signed "ssl-zookeeper-root-ca" in
  ks_set "ssl_cert" sm.1;;
  ks_set "ssl_key" sm.2.

(** Lines 140-143, under the comment "Check if the certificates remain the
    same". The fourth conjunct repeats the second. *)
Definition certificates_remain_the_same : M bool :=
  andM (ks_same "quorum_cert" get_quorum_cert)
    (andM (ks_same "quorum_key" get_quorum_key)
       (andM (ks_same "ssl_cert" get_ssl_cert)
          (ks_same "quorum_key" get_quorum_key))).

(** Lines 147-150: "Certs already set either as configs or certificates
    relation". *)
Definition store_supplied_material : M unit :=
  let* qc := get_quorum_cert in ks_set "quorum_cert" qc;;
  let* qk := get_quorum_key in ks_set "quorum_key" qk;;
  let* sc := get_ssl_cert in ks_set "ssl_cert" sc;;
  let* sk := get_ssl_key in ks_set "ssl_key" sk.

(** Lines 151-165. *)
Definition quorum_keystore_block : M unit :=
  let* q := andM (ks_nonempty "quorum_cert") (ks_nonempty "quorum_key") in
  if q then
    build_keystore "ks_zookeeper_pwd" get_quorum_keystore
      get_quorum_cert get_quorum_key
  else ret tt.

(** Lines 166-180. *)
Definition client_keystore_block : M unit :=
  let* c := andM (ks_nonempty "ssl_cert") (ks_nonempty "ssl_key") in
  if c then
    build_keystore "ks_password" get_ssl_keystore get_ssl_cert get_ssl_key
  else ret tt.

(** The two [return] statements become the [ret tt] exits; [unchanged] is
    true exactly on the second one. *)
Definition _generate_keystores : M unit :=
  let* generated := already_generated in
  if generated then ret tt
  else
    let* g := config_item cfg "generate-root-ca" in
    let* unchanged :=
      (if truthy g then generate_root_cas;; ret false
       else
         let* same := certificates_remain_the_same in
         if same then
           (* Yes, they do, leave this method as there is nothing to do. *)
           ret true
         else store_supplied_material;; ret false) in
    if unchanged then ret tt
    else quorum_keystore_block;; client_keystore_block.

(** *** [_render_zk_properties] *)

(** [list(y.items())[0][1]] *)
Definition first_item_value (y : yaml) : result value :=
  match y with
  | YMap ((_, v) :: _) => Ok v
  | YMap [] => Raise IndexError
  | YOther => Raise (AttributeError "items")
  end.

(** [list(yaml.safe_load(self.config[key]).items())[0][1]] *)
Definition first_yaml_value (key : string) : M value :=
  let* raw := config_item cfg key in
  let* y := lift (yaml_safe_load raw) in
  lift (first_item_value y).

(** The loop over [zk_list]. In
    [zk_props["server.{}".format(zk_list[i]["myid"])] = zk_list[i]["endpoint"]]
    the right-hand side is evaluated before the key. *)
Fixpoint add_servers (zk_list : list (gmap string value)) (zk_props : props)
  : result props :=
  match zk_list with
  | [] => Ok zk_props
  | peer :: rest =>
      match peer !! "endpoint" with
      | None => Raise (KeyError "endpoint")
      | Some endpoint =>
          match peer !! "myid" with
          | None => Raise (KeyError "myid")
          | Some myid =>
              add_servers rest
                (dict_set ("server." +:+ format myid) endpoint zk_props)
          end
      end
  end.

(** The part of [self.cluster] (class [ZookeeperCluster]) that the charm
    reads: the properties [is_ready] and [get_peers]. *)
Record cluster := Cluster {
  is_ready : bool;
  get_peers : list (gmap string value)
}.

(** The Python method returns [None] on both of its exits. The embedding
    returns which exit was taken: [Blocked msg] for the early return, where a
    [BlockedStatus(msg)] object is built (and not stored anywhere), and
    [Rendered zk_props] after the call to [render]. *)
Inductive outcome :=
| Blocked (msg : string)
| Rendered (zk_props : props).

Definition zookeeper_properties : string := "/etc/kafka/zookeeper.properties".

(** The client-TLS branch, lines 235-260. *)
Definition client_tls_props (zk_props : props) : M props :=
  let zk_props :=
    dict_set "secureClientPort" (config_get cfg "clientPort" (VInt 2182))
      zk_props in
  let zk_props :=
    dict_set "serverCnxnFactory"
      (VStr "org.apache.zookeeper.server.NettyServerCnxnFactory") zk_props in
  let zk_props :=
    dict_set "authProvider.x509"
      (VStr "org.apache.zookeeper.server.auth.X509AuthenticationProvider")
      zk_props in
  let zk_props := dict_set "sslQuorum" (VStr "false") zk_props in
  let zk_props := dict_set "ssl.clientAuth" (VStr "need") zk_props in
  let zk_props :=
    dict_set "ssl.keyStore.location"
      (config_get cfg "keystore-path"
         (VStr "/var/ssl/private/zookeeper.keystore.jks")) zk_props in
  let* ks_password := ks_get "ks_password" in
  let zk_props := dict_set "ssl.keyStore.password" (VStr ks_password) zk_props in
  let zk_props :=
    dict_set "ssl.trustStore.location"
      (config_get cfg "truststore-path"
         (VStr "/var/ssl/private/zookeeper.truststore.jks")) zk_props in
  let* ts_password := ks_get "ts_password" in
  let zk_props :=
    dict_set "ssl.trustStore.password" (VStr ts_password) zk_props in
  let* cert := config_item cfg "ssl_cert" in
  let* ts_password := ks_get "ts_password" in
  call (CallSetMTLSAuth cert
          (config_get cfg "truststore-path"
             (VStr "/var/ssl/private/zookeeper.truststore.jks"))
          ts_password);;
  ret zk_props.

(** The quorum-TLS branch, lines 269-285. *)
Definition quorum_tls_props (zk_props : props) : M props :=
  let zk_props :=
    dict_set "serverCnxnFactory"
      (VStr "org.apache.zookeeper.server.NettyServerCnxnFactory") zk_props in
  let* cert := get_quorum_cert in
  let* ts_pwd := ks_get "ts_zookeeper_pwd" in
  let* user := config_item cfg "user" in
  let* group := config_item cfg "group" in
  call (CallSetSslKeypair cert get_quorum_truststore ts_pwd user group);;
  let zk_props :=
    dict_set "ssl.quorum.keyStore.location" get_quorum_keystore zk_props in
  let* ks_pwd := ks_get "ks_zookeeper_pwd" in
  let zk_props :=
    dict_set "ssl.quorum.keyStore.password" (VStr ks_pwd) zk_props in
  let zk_props :=
    dict_set "ssl.quorum.trustStore.location" get_quorum_truststore zk_props in
  let* ts_pwd := ks_get "ts_zookeeper_pwd" in
  let zk_props :=
    dict_set "ssl.quorum.trustStore.password" (VStr ts_pwd) zk_props in
  ret (dict_set "sslQuorum" (VStr "true") zk_props).

(** Everything the method does before it looks at the cluster, lines
    228-285. [self.config.get("zookeeper-properties", "") or {}] is the empty
    dict when the option is falsy; a truthy option (a non-empty string, say)
    is not a dict, and the first item assignment raises once its right-hand
    side has been evaluated. *)
Definition tls_props : M props :=
  let zk0 := config_get cfg "zookeeper-properties" (VStr "") in
  let* data_dir := first_yaml_value "data-dir" in
  let* zk_props :=
    (if truthy zk0
     then raise (TypeError "object does not support item assignment")
     else ret (dict_set "dataDir" data_dir [])) in
  let* data_log_dir := first_yaml_value "data-log-dir" in
  let zk_props := dict_set "dataLogDir" data_log_dir zk_props in
  let* client := andM (ks_nonempty "ssl_cert") (ks_nonempty "ssl_key") in
  let* zk_props :=
    (if client then client_tls_props zk_props
     else
       let zk_props := dict_set "ssl.clientAuth" (VStr "none") zk_props in
       ret (dict_set "clientPort" (config_get cfg "clientPort" (VInt 2182))
              zk_props)) in
  if truthy (config_get cfg "ssl_quorum" (VBool false))
  then quorum_tls_props zk_props
  else ret zk_props.

Definition _render_zk_properties (cl : cluster) : M outcome :=
  let* zk_props := tls_props in
  if negb (is_ready cl) then
    (* We leave this condition once myid is set across the units *)
    ret (Blocked "Waiting for cluster to bootstrap")
  else
    let* zk_props := lift (add_servers (get_peers cl) zk_props) in
    call (CallRender "zookeeper.properties.j2" zookeeper_properties
            (cfg !! "user") (cfg !! "group") (CtxZkProps zk_props));;
    ret (Rendered zk_props).

(** *** The other steps of [_on_config_changed] *)

Definition _render_zk_log4j_properties : M unit :=
  let root_logger :=
    match cfg !! "log4j-root-logger" with
    | Some v => if truthy v then v else VStr "INFO, stdout, zkAppender"
    | None => VStr "INFO, stdout, zkAppender"
    end in
  call (CallRender "zookeeper_log4j.properties.j2"
          "/etc/kafka/zookeeper-log4j.properties"
          (cfg !! "user") (cfg !! "group") (CtxRootLogger root_logger)).

(** The status objects [_check_if_ready] builds; like the one in
    [_render_zk_properties] they are returned here to name the exit taken. *)
Inductive status :=
| BlockedStatus (msg : string)
| ActiveStatus (msg : string).

Definition _check_if_ready (cl : cluster) : M status :=
  if negb (is_ready cl) then ret (BlockedStatus "Waiting for cluster relation")
  else
    let* svc := get_service in
    if negb (service_running svc) then
      let* svc := get_service in
      ret (BlockedStatus ("Service not running " +:+ svc))
    else
      let* svc := get_service in
      ret (ActiveStatus (svc +:+ " running")).

Definition _on_config_changed (cl : cluster) : M unit :=
  (if String.eqb distro "confluent" then set_service "confluent-zookeeper"
   else if String.eqb distro "apache" then set_service "zookeeper"
   else ret tt);;
  _generate_keystores;;
  _render_zk_properties cl;;
  _render_zk_log4j_properties;;
  call CallRenderServiceOverrideFile;;
  let* svc := get_service in
  call (CallServiceReload svc);;
  let* svc := get_service in
  call (CallServiceRestart svc);;
  _check_if_ready cl;;
  ret tt.

(** *** [__init__]

    The part of the constructor that touches the stored state and the
    file system: the six defaults, the directory for private material and a
    first run of [_generate_keystores]. *)
Definition __init__ : M unit :=
  ks_set_default "quorum_cert" "";;
  ks_set_default "quorum_key" "";;
  ks_set_default "ssl_cert" "";;
  ks_set_default "ssl_key" "";;
  ks_set_default "ts_zookeeper_pwd" "";;
  ks_set_default "ks_zookeeper_pwd" "";;
  call (CallMakedirs "/var/ssl/private");;
  _generate_keystores.

End Charm.

(** * Summaries of the runs

    Closed forms of the worlds that the blocks of [_generate_keystores]
    produce; the lemmas further down prove that the code computes them. *)

(** ** Key material *)

(** The four fields the charm keeps in [self.ks]. *)
Record material := Material {
  m_quorum_cert : string;
  m_quorum_key : string;
  m_ssl_cert : string;
  m_ssl_key : string
}.

Definition nonempty (s : string) : bool := (0 <? String.length s)%nat.

(** Both halves of a scope are populated. *)
Definition complete (cert key : string) : bool := nonempty cert && nonempty key.


Definition all_populated (m : material) : bool :=
  complete (m_quorum_cert m) (m_quorum_key m) &&
  complete (m_ssl_cert m) (m_ssl_key m).

(** What the condition at lines 140-143 compares: three of the four
    fields. *)
Definition compared_equal (m0 m : material) : bool :=
  String.eqb (m_quorum_cert m0) (m_quorum_cert m) &&
  String.eqb (m_quorum_key m0) (m_quorum_key m) &&
  String.eqb (m_ssl_cert m0) (m_ssl_cert m).

(** The material currently in [self.ks], when all four fields are stored. *)
Definition stored_material (w : world) : option material :=
  qc ← ks w !! "quorum_cert";
  qk ← ks w !! "quorum_key";
  sc ← ks w !! "ssl_cert";
  sk ← ks w !! "ssl_key";
  Some (Material qc qk sc sk).

(** The world after the four assignments of lines 147-150 (or 126-137). *)
Definition store_material (m : material) (w : world) : world :=
  World (<["ssl_key" := m_ssl_key m]>
           (<["ssl_cert" := m_ssl_cert m]>
              (<["quorum_key" := m_quorum_key m]>
                 (<["quorum_cert" := m_quorum_cert m]> (ks w)))))
    (service w) (seed w) (trace w).

(** Keystores written by the packaging collaborator to [path], most recent
    first, each with its password, certificate and key. *)
Fixpoint keystores_at (path : value) (tr : list event)
  : list (string * string * string) :=
  match tr with
  | [] => []
  | CallPKCS12CreateKeystore p pwd cert key _ _ _ _ _ :: tr' =>
      if decide (p = path) then (pwd, cert, key) :: keystores_at path tr'
      else keystores_at path tr'
  | _ :: tr' => keystores_at path tr'
  end.

(** All keystore writes, most recent first. *)
Definition is_keystore_write (e : event) : bool :=
  match e with
  | CallPKCS12CreateKeystore _ _ _ _ _ _ _ _ _ => true
  | _ => false
  end.

Definition keystore_writes (tr : list event) : list event :=
  List.filter is_keystore_write tr.

Section Summaries.
Context `{Collaborators}.
Implicit Types (cfg : gmap string value) (w : world) (m : material).

(** [base64.b64decode(self.config[key]).decode("ascii")], when it returns. *)
Definition decoded cfg (key : string) : option string :=
  match cfg !! key with
  | Some v => match b64decode_ascii v with Ok s => Some s | Raise _ => None end
  | None => None
  end.

(** The material supplied through the configuration: defined when
    [generate-root-ca] is present and false and the four options decode. *)
Definition external_material cfg : option material :=
  match cfg !! "generate-root-ca" with
  | Some g =>
      if truthy g then None
      else
        qc ← decoded cfg "ssl-quorum-cert";
        qk ← decoded cfg "ssl-quorum-key";
        sc ← decoded cfg "ssl_cert";
        sk ← decoded cfg "ssl_key";
        Some (Material qc qk sc sk)
  | None => None
  end.

(** The root CAs that lines 126-137 generate from a world at [seed w]. *)
Definition generated_material cfg (user group : value) (w : world) : material :=
  let qm := generateSelfSigned unit_folder "quorum-zookeeper-root-ca"
              user group (seed w) in
  let sm := generateSelfSigned unit_folder "ssl-zookeeper-root-ca"
              user group (S (seed w)) in
  Material qm.1 qm.2 sm.1 sm.2.

(** The world after lines 126-137. *)
Definition after_generation cfg (user group : value) (w : world) : world :=
  store_material (generated_material cfg user group w)
    (World (ks w) (service w) (S (S (seed w)))
       (CallGenerateSelfSigned unit_folder "ssl-zookeeper-root-ca" user group
        :: CallGenerateSelfSigned unit_folder "quorum-zookeeper-root-ca"
             user group
        :: trace w)).

(** The world after one of the keystore blocks has run its body. *)
Definition write_keystore (pwd_attr : string) (path : value)
    (cert key : string) (user group : value) (w : world) : world :=
  let pwd := genRandomPassword None (seed w) in
  let filename := genRandomPassword (Some 6) (S (seed w)) in
  World (<[pwd_attr := pwd]> (ks w)) (service w) (S (S (seed w)))
    (CallPKCS12CreateKeystore path pwd cert key user group
       ("/tmp/" +:+ filename +:+ ".chain") ("/tmp/" +:+ filename +:+ ".key")
       ("/tmp/" +:+ filename +:+ ".p12") :: trace w).

(** The world after lines 151-180, for stored material [m]. *)
Definition rebuild cfg (user group : value) m (w : world) : world :=
  let w1 :=
    if complete (m_quorum_cert m) (m_quorum_key m)
    then write_keystore "ks_zookeeper_pwd" (get_quorum_keystore cfg)
           (m_quorum_cert m) (m_quorum_key m) user group w
    else w in
  if complete (m_ssl_cert m) (m_ssl_key m)
  then write_keystore "ks_password" (get_ssl_keystore cfg)
         (m_ssl_cert m) (m_ssl_key m) user group w1
  else w1.

(** The material the accessors return in a world: the stored one with
    [generate-root-ca], the supplied one without. *)
Definition current_material cfg w : option material :=
  match cfg !! "generate-root-ca" with
  | Some g => if truthy g then stored_material w else external_material cfg
  | None => None
  end.

(** The fields that hold a password, as opposed to material: storing one
    leaves the material where it is. *)
Definition password_field (attr : string) : Prop :=
  attr ≠ "quorum_cert" ∧ attr ≠ "quorum_key" ∧
  attr ≠ "ssl_cert" ∧ attr ≠ "ssl_key".


(** The generators honour their contract: a certificate and a key, both
    non-empty. *)
Definition generator_populates (user group : value) : Prop :=
  ∀ certname n,
    complete (generateSelfSigned unit_folder certname user group n).1
             (generateSelfSigned unit_folder certname user group n).2 = true.

End Summaries.

(** * Observations on runs *)

(** The contexts rendered into [zookeeper.properties], most recent first:
    the configurations the charm has emitted. *)
Fixpoint emitted_configs (tr : list event) : list props :=
  match tr with
  | [] => []
  | CallRender _ target _ _ (CtxZkProps zk_props) :: tr' =>
      if String.eqb target zookeeper_properties
      then zk_props :: emitted_configs tr'
      else emitted_configs tr'
  | _ :: tr' => emitted_configs tr'
  end.

(** A run ended in an exception. *)
Definition raised {A} (run : result A * world) : Prop :=
  match run.1 with
  | Raise _ => True
  | Ok _ => False
  end.

(** [frame R m]: whatever the world and however [m] ends, the world it
    leaves is related by [R] to the one it started from. *)
Definition frame (R : world → world → Prop) {A} (m : M A) : Prop :=
  ∀ w, R w (m w).2.

(** Nothing was emitted between two worlds. *)
Definition same_emitted (w w' : world) : Prop :=
  emitted_configs (trace w') = emitted_configs (trace w).

(** The stored field [attr] is the same in two worlds (stored with the same
    content, or absent from both). *)
Definition same_field (attr : string) (w w' : world) : Prop :=
  ks w' !! attr = ks w !! attr.

(** The stored state and the random draws are the same in two worlds. *)
Definition same_store (w w' : world) : Prop :=
  ks w' = ks w ∧ seed w' = seed w.

(** The second world has the trace of the first, with more calls on top. *)
Definition trace_extends (w w' : world) : Prop :=
  ∃ calls, trace w' = (calls ++ trace w)%list.

(** The result of [m] and the stored state it leaves depend on the stored
    state only, not on the trace, the random draws or the service name. *)
Definition store_determined {A} (m : M A) : Prop :=
  ∀ w1 w2, ks w1 = ks w2 →
    (m w1).1 = (m w2).1 ∧ ks (m w1).2 = ks (m w2).2.

(** The keys of the per-member entries. *)
Definition server_key (myid : value) : string := "server." +:+ format myid.

Definition is_server_key (k : string) : bool := String.prefix "server." k.

(** The per-member entries of a dict, in dict order. *)
Definition server_entries (d : props) : props :=
  List.filter (λ kv, is_server_key kv.1) d.

(** The entries the peer list asks for, in peer-list order. *)
Fixpoint peer_entries (zk_list : list (gmap string value)) : option props :=
  match zk_list with
  | [] => Some []
  | p :: rest =>
      match p !! "myid", p !! "endpoint", peer_entries rest with
      | Some myid, Some endpoint, Some es =>
          Some ((server_key myid, endpoint) :: es)
      | _, _, _ => None
      end
  end.

(** A path lies under a directory. *)
Definition under_directory (dir : string) (path : value) : bool :=
  match path with
  | VStr p => String.prefix (dir +:+ "/") p
  | _ => false
  end.

(** * The ensemble membership registry

    [self.cluster] is an instance of [ZookeeperCluster], defined in
    [cluster.py]; that module is not among the sources. *)
Module Registry.

Inductive origin := Self | Remote.

Record ClusterMember := Member {
  memberId : positive;
  endpoint : string;
  member_origin : origin
}.

(** Modelled from the spec: the EnsembleState of section 3, owned by the
    registry of [cluster.py], which is missing. [members] maps a member id
    to its member; [selfId] is the id recorded against Self, if any;
    [selfEndpoint] is the endpoint this unit announces. *)
Record EnsembleState := Ensemble {
  expectedSize : nat;
  members : gmap positive ClusterMember;
  selfId : option positive;
  selfEndpoint : string
}.

(** Modelled from the spec: "the smallest positive integer not already
    present in [members]" of [assignSelfId], which is missing. The search
    walks up from [i]; [fuel] bounds it by the number of members. *)
Fixpoint first_free_from (fuel : nat) (i : positive)
    (m : gmap positive ClusterMember) : positive :=
  match fuel with
  | O => i
  | S fuel' =>
      match m !! i with
      | Some _ => first_free_from fuel' (Pos.succ i) m
      | None => i
      end
  end.

Definition first_free (m : gmap positive ClusterMember) : positive :=
  first_free_from (size m) 1 m.

(** Modelled from the spec: [assignSelfId() -> memberId] of section 4.1,
    whose code in [cluster.py] is missing. "If self already has an assigned
    id, return it unchanged. Otherwise compute the smallest positive integer
    not already present in [members], record it against Self, and return
    it." *)
Definition assignSelfId (r : EnsembleState) : positive * EnsembleState :=
  match selfId r with
  | Some i => (i, r)
  | None =>
      let i := first_free (members r) in
      (i, Ensemble (expectedSize r)
            (<[i := Member i (selfEndpoint r) Self]> (members r))
            (Some i) (selfEndpoint r))
  end.

Inductive error := ConflictError.

(** Modelled from the spec: [recordPeer(memberId, endpoint)] of section
    4.1, whose code in [cluster.py] is missing. It "upserts a ClusterMember
    with origin = Remote" and "fails with ConflictError if an existing entry
    for the same memberId has a different endpoint and the caller did not
    explicitly request a replace". *)
Definition recordPeer (id : positive) (ep : string) (replace : bool)
    (r : EnsembleState) : error + EnsembleState :=
  let upserted :=
    Ensemble (expectedSize r) (<[id := Member id ep Remote]> (members r))
      (selfId r) (selfEndpoint r) in
  match members r !! id with
  | Some m =>
      if String.eqb (endpoint m) ep || replace then inr upserted
      else inl ConflictError
  | None => inr upserted
  end.

(** A sequence of peer announcements, stopping at the first conflict. *)
Fixpoint recordPeers (peers : list (positive * string)) (r : EnsembleState)
  : error + EnsembleState :=
  match peers with
  | [] => inr r
  | (id, ep) :: rest =>
      match recordPeer id ep false r with
      | inr r' => recordPeers rest r'
      | inl e => inl e
      end
  end.

End Registry.

(** * Sample deployments

    Concrete collaborators, configurations and worlds on which the code is
    run further down. *)

(** Collaborators that answer on a handful of inputs: the base64 texts of
    the one-letter strings ["A"] to ["E"] and of the empty string, YAML
    documents with a single entry, and generators that number their
    results by the draw. *)
Definition sample : Collaborators := {|
  b64decode_ascii v :=
    match v with
    | VStr "" => Ok ""
    | VStr "QQ==" => Ok "A"
    | VStr "Qg==" => Ok "B"
    | VStr "Qw==" => Ok "C"
    | VStr "RA==" => Ok "D"
    | VStr "RQ==" => Ok "E"
    | VStr _ => Raise (ValueError "Incorrect padding")
    | _ => Raise (TypeError "argument should be a bytes-like object")
    end;
  generateSelfSigned _ certname _ _ n :=
    ("cert-" +:+ certname +:+ "-" +:+ pretty n,
     "key-" +:+ certname +:+ "-" +:+ pretty n);
  genRandomPassword _ n := "pw" +:+ pretty n;
  yaml_safe_load v :=
    match v with
    | VStr "ext4: /var/lib/zookeeper" =>
        Ok (YMap [("ext4", VStr "/var/lib/zookeeper")])
    | VStr "ext4: /var/log/zookeeper" =>
        Ok (YMap [("ext4", VStr "/var/log/zookeeper")])
    | VStr _ => Ok YOther
    | _ => Raise (AttributeError "read")
    end;
  unit_folder := "/var/lib/juju/agents/unit-zookeeper-0";
  distro := "confluent";
  service_running _ := true
|}.

(** The world of a unit on which no hook has run yet. *)
Definition fresh : world := World ∅ None 0 [].

Definition base_config : gmap string value :=
  {[ "user" := VStr "cp-kafka";
     "group" := VStr "confluent";
     "data-dir" := VStr "ext4: /var/lib/zookeeper";
     "data-log-dir" := VStr "ext4: /var/log/zookeeper" ]}.

(** A configuration that supplies the material, base64-encoded. *)
Definition supplied_config (quorum_cert quorum_key ssl_cert ssl_key : string)
  : gmap string value :=
  <["generate-root-ca" := VBool false]>
    (<["ssl-quorum-cert" := VStr quorum_cert]>
       (<["ssl-quorum-key" := VStr quorum_key]>
          (<["ssl_cert" := VStr ssl_cert]>
             (<["ssl_key" := VStr ssl_key]> base_config)))).

(** A configuration that asks the charm to generate its root CAs. *)
Definition root_ca_config : gmap string value :=
  <["generate-root-ca" := VBool true]> (<["ssl_cert" := VStr ""]> base_config).

(** The world after the constructor has run under [cfg] on a fresh unit. *)
Definition constructed (cfg : gmap string value) : world :=
  (@__init__ sample cfg fresh).2.

(** A fresh unit on which the four material fields have their defaults. *)
Definition with_defaults : world :=
  ((ks_set_default "quorum_cert" "";; ks_set_default "quorum_key" "";;
    ks_set_default "ssl_cert" "";; ks_set_default "ssl_key" "";;
    ks_set_default "ts_zookeeper_pwd" "";;
    ks_set_default "ks_zookeeper_pwd" "") fresh).2.

(** The same unit, with a truststore password in its stored state. *)
Definition with_truststore_password : world :=
  (ks_set "ts_password" "changeit" with_defaults).2.

(** Quorum TLS switched on. *)
Definition with_ssl_quorum (cfg : gmap string value) : gmap string value :=
  <["ssl_quorum" := VBool true]> cfg.

(** A ready ensemble of three members, and the same ensemble with its peer
    list in another order. *)
Definition peer (myid : Z) (endpoint : string) : gmap string value :=
  {[ "myid" := VInt myid; "endpoint" := VStr endpoint ]}.

Definition three_members : cluster :=
  Cluster true [peer 1 "host1:2888:3888"; peer 2 "host2:2888:3888";
                peer 3 "host3:2888:3888"].

Definition three_members_shuffled : cluster :=
  Cluster true [peer 2 "host2:2888:3888"; peer 3 "host3:2888:3888";
                peer 1 "host1:2888:3888"].

Definition bootstrapping : cluster :=
  Cluster false [peer 1 "host1:2888:3888"].

(** A registry that knows the peers 1, 2 and 4 and has not assigned an id
    to its own unit yet. *)
Definition sample_registry : Registry.EnsembleState :=
  Registry.Ensemble 3
    (<[1%positive := Registry.Member 1 "host1:2888:3888" Registry.Remote]>
       (<[2%positive := Registry.Member 2 "host2:2888:3888" Registry.Remote]>
          (<[4%positive := Registry.Member 4 "host4:2888:3888" Registry.Remote]>
             ∅)))
    None "host0:2888:3888".


(** * Further observations on runs *)

(** Every field stored in the first world is still stored in the second. *)
Definition fields_kept (w w' : world) : Prop :=
  ∀ attr, is_Some (ks w !! attr) → is_Some (ks w' !! attr).

(** Reloads and restarts of the service, most recent first. *)
Definition is_service_call (e : event) : bool :=
  match e with
  | CallServiceReload _ | CallServiceRestart _ => true
  | _ => false
  end.

Definition service_calls (tr : list event) : list event :=
  List.filter is_service_call tr.

(** The service name and the service calls are the same in two worlds. *)
Definition same_service (w w' : world) : Prop :=
  service w' = service w ∧
  service_calls (trace w') = service_calls (trace w).

(** What the charm publishes on its relations, most recent first. *)
Definition is_announcement (e : event) : bool :=
  match e with
  | CallSetMTLSAuth _ _ _ | CallSetSslKeypair _ _ _ _ _ => true
  | _ => false
  end.

Definition announcements (tr : list event) : list event :=
  List.filter is_announcement tr.

(** No keystore was written to [path] between two worlds. *)
Definition same_keystores_at (path : value) (w w' : world) : Prop :=
  keystores_at path (trace w') = keystores_at path (trace w).

(** The endpoint of the last peer of the list whose id gives the key [k]. *)
Fixpoint last_endpoint (k : string) (zk_list : list (gmap string value))
  : option value :=
  match zk_list with
  | [] => None
  | p :: rest =>
      match last_endpoint k rest with
      | Some e => Some e
      | None =>
          match p !! "myid", p !! "endpoint" with
          | Some myid, Some e =>
              if String.eqb (server_key myid) k then Some e else None
          | _, _ => None
          end
      end
  end.

Section Behaviour.
Context `{Collaborators}.
Implicit Types (cfg : gmap string value) (w : world).

(** The value of [self.service] once lines 317-320 have run. *)
Definition service_name w : option string :=
  if String.eqb distro "confluent" then Some "confluent-zookeeper"
  else if String.eqb distro "apache" then Some "zookeeper"
  else service w.

(** The root logger of lines 305-306. *)
Definition root_logger cfg : value :=
  match cfg !! "log4j-root-logger" with
  | Some v => if truthy v then v else VStr "INFO, stdout, zkAppender"
  | None => VStr "INFO, stdout, zkAppender"
  end.

(** The calls that follow the rendering of [zookeeper.properties] in
    [_on_config_changed], lines 323-324, most recent first. *)
Definition rendering_tail cfg : list event :=
  [CallRenderServiceOverrideFile;
   CallRender "zookeeper_log4j.properties.j2"
     "/etc/kafka/zookeeper-log4j.properties"
     (cfg !! "user") (cfg !! "group") (CtxRootLogger (root_logger cfg))].

(** The world in which the hook ends when lines 317-326 have run from [w]
    and rendering has left the world [w2]. *)
Definition restarted cfg (svc : string) (w2 : world) : world :=
  World (ks w2) (service w2) (seed w2)
    (CallServiceRestart svc :: CallServiceReload svc
     :: (rendering_tail cfg ++ trace w2)%list).

End Behaviour.

(** ** More sample deployments *)


(** A unit whose [self.ks] has a truststore password and the constructor's
    defaults, then material supplied by [cfg]. *)
Definition constructed_with_truststore_password (cfg : gmap string value)
  : world :=
  (@__init__ sample cfg with_truststore_password).2.

(** An ensemble in which two peers announce the same id. *)
Definition duplicate_ids : cluster :=
  Cluster true [peer 1 "host1:2888:3888"; peer 2 "host2:2888:3888";
                peer 1 "host9:2888:3888"].

(** A configuration with an extra-properties option. *)
Definition with_zookeeper_properties (cfg : gmap string value)
  : gmap string value :=
  <["zookeeper-properties" := VStr "tickTime=2000"]> cfg.

(** * Reasoning about runs *)

(** Evaluates the monadic primitives in the goal and rewrites with the
    lookups and results known from the hypotheses. Named blocks of the charm
    stay folded, so that their own lemmas apply. *)
Ltac py_lookup :=
  match goal with
  | |- context [ <[?a := ?x]> ?m !! ?a ] => rewrite (lookup_insert_eq m a x)
  | |- context [ <[?a := ?x]> ?m !! ?b ] =>
      rewrite (lookup_insert_ne m a b x) by discriminate
  end.

Ltac py_known l H :=
  match goal with |- context [l] => rewrite H end.

Ltac py_rewrite :=
  match goal with
  | H : ?l = Some _ |- _ => py_known l H
  | H : ?l = None |- _ => py_known l H
  | H : ?l = Ok _ |- _ => py_known l H
  | H : ?l = (_, _) |- _ => py_known l H
  | H : ?l = true |- _ => py_known l H
  | H : ?l = false |- _ => py_known l H
  end.

Ltac py_eval :=
  cbv [bind ret raise lift andM ks_nonempty ks_same config_item ks_get ks_set
       call draw gen_password set_service get_service ks_set_default];
  repeat (progress (
    repeat py_rewrite; repeat py_lookup;
    cbn [ks service seed trace fst snd]; cbv beta iota)).

Section Runs.
Context `{Collaborators}.
Implicit Types (cfg : gmap string value) (w : world) (m : material).


Lemma decoded_inv cfg key s :
  decoded cfg key = Some s →
  ∃ v, cfg !! key = Some v ∧ b64decode_ascii v = Ok s.
Proof.
  unfold decoded. destruct (cfg !! key) as [v|]; [|done].
  destruct (b64decode_ascii v) eqn:Hd; [|done]. intros [= <-]. eauto.
Qed.

Lemma external_material_inv cfg m :
  external_material cfg = Some m →
  ∃ g, cfg !! "generate-root-ca" = Some g ∧ truthy g = false ∧
    decoded cfg "ssl-quorum-cert" = Some (m_quorum_cert m) ∧
    decoded cfg "ssl-quorum-key" = Some (m_quorum_key m) ∧
    decoded cfg "ssl_cert" = Some (m_ssl_cert m) ∧
    decoded cfg "ssl_key" = Some (m_ssl_key m).
Proof.
  unfold external_material. intros Hm.
  destruct (cfg !! "generate-root-ca") as [g|]; [|done].
  destruct (truthy g) eqn:Ht; [done|]. exists g.
  destruct (decoded cfg "ssl-quorum-cert"); [|done].
  destruct (decoded cfg "ssl-quorum-key"); [|done].
  destruct (decoded cfg "ssl_cert"); [|done].
  destruct (decoded cfg "ssl_key"); [|done].
  simpl in Hm. simplify_eq. by repeat split.
Qed.

Lemma stored_material_inv w m :
  stored_material w = Some m →
  ks w !! "quorum_cert" = Some (m_quorum_cert m) ∧
  ks w !! "quorum_key" = Some (m_quorum_key m) ∧
  ks w !! "ssl_cert" = Some (m_ssl_cert m) ∧
  ks w !! "ssl_key" = Some (m_ssl_key m).
Proof.
  unfold stored_material. intros Hm.
  destruct (ks w !! "quorum_cert"); [|done].
  destruct (ks w !! "quorum_key"); [|done].
  destruct (ks w !! "ssl_cert"); [|done].
  destruct (ks w !! "ssl_key"); [|done].
  simpl in Hm. simplify_eq. by repeat split.
Qed.

Lemma stored_material_intro w m :
  ks w !! "quorum_cert" = Some (m_quorum_cert m) →
  ks w !! "quorum_key" = Some (m_quorum_key m) →
  ks w !! "ssl_cert" = Some (m_ssl_cert m) →
  ks w !! "ssl_key" = Some (m_ssl_key m) →
  stored_material w = Some m.
Proof.
  unfold stored_material. intros -> -> -> ->. by destruct m.
Qed.

Lemma stored_store_material m w : stored_material (store_material m w) = Some m.
Proof.
  apply stored_material_intro; unfold store_material; cbn [ks];
    by simplify_map_eq.
Qed.

(** *** The accessors, in each mode *)

Ltac getter_external :=
  intros (g & Hg & Hmode & (?&?&?)%decoded_inv & (?&?&?)%decoded_inv &
          (?&?&?)%decoded_inv & (?&?&?)%decoded_inv)%external_material_inv;
  by py_eval.

Lemma get_quorum_cert_external cfg m w :
  external_material cfg = Some m →
  get_quorum_cert cfg w = (Ok (m_quorum_cert m), w).
Proof. unfold get_quorum_cert. getter_external. Qed.

Lemma get_quorum_key_external cfg m w :
  external_material cfg = Some m →
  get_quorum_key cfg w = (Ok (m_quorum_key m), w).
Proof. unfold get_quorum_key. getter_external. Qed.

Lemma get_ssl_cert_external cfg m w :
  external_material cfg = Some m →
  get_ssl_cert cfg w = (Ok (m_ssl_cert m), w).
Proof. unfold get_ssl_cert. getter_external. Qed.

Lemma get_ssl_key_external cfg m w :
  external_material cfg = Some m →
  get_ssl_key cfg w = (Ok (m_ssl_key m), w).
Proof. unfold get_ssl_key. getter_external. Qed.

Ltac getter_ca :=
  intros Hg Hmode (?&?&?&?)%stored_material_inv; by py_eval.

Lemma get_quorum_cert_ca cfg g m w :
  cfg !! "generate-root-ca" = Some g → truthy g = true →
  stored_material w = Some m →
  get_quorum_cert cfg w = (Ok (m_quorum_cert m), w).
Proof. unfold get_quorum_cert. getter_ca. Qed.

Lemma get_quorum_key_ca cfg g m w :
  cfg !! "generate-root-ca" = Some g → truthy g = true →
  stored_material w = Some m →
  get_quorum_key cfg w = (Ok (m_quorum_key m), w).
Proof. unfold get_quorum_key. getter_ca. Qed.

Lemma get_ssl_cert_ca cfg g m w :
  cfg !! "generate-root-ca" = Some g → truthy g = true →
  stored_material w = Some m →
  get_ssl_cert cfg w = (Ok (m_ssl_cert m), w).
Proof. unfold get_ssl_cert. getter_ca. Qed.

Lemma get_ssl_key_ca cfg g m w :
  cfg !! "generate-root-ca" = Some g → truthy g = true →
  stored_material w = Some m →
  get_ssl_key cfg w = (Ok (m_ssl_key m), w).
Proof. unfold get_ssl_key. getter_ca. Qed.

Lemma getters_current cfg m w :
  current_material cfg w = Some m →
  get_quorum_cert cfg w = (Ok (m_quorum_cert m), w) ∧
  get_quorum_key cfg w = (Ok (m_quorum_key m), w) ∧
  get_ssl_cert cfg w = (Ok (m_ssl_cert m), w) ∧
  get_ssl_key cfg w = (Ok (m_ssl_key m), w).
Proof.
  unfold current_material.
  destruct (cfg !! "generate-root-ca") as [g|] eqn:Hg; [|done].
  destruct (truthy g) eqn:Hmode; intros Hm.
  - repeat split; eauto using get_quorum_cert_ca, get_quorum_key_ca,
      get_ssl_cert_ca, get_ssl_key_ca.
  - repeat split; eauto using get_quorum_cert_external,
      get_quorum_key_external, get_ssl_cert_external, get_ssl_key_external.
Qed.

Lemma stored_material_fields w w' :
  ks w' !! "quorum_cert" = ks w !! "quorum_cert" →
  ks w' !! "quorum_key" = ks w !! "quorum_key" →
  ks w' !! "ssl_cert" = ks w !! "ssl_cert" →
  ks w' !! "ssl_key" = ks w !! "ssl_key" →
  stored_material w' = stored_material w.
Proof. unfold stored_material. by intros -> -> -> ->. Qed.

Lemma current_material_fields cfg w w' :
  stored_material w' = stored_material w →
  current_material cfg w' = current_material cfg w.
Proof. unfold current_material. by intros ->. Qed.

Lemma stored_write_keystore pwd_attr path cert key user group w :
  password_field pwd_attr →
  stored_material (write_keystore pwd_attr path cert key user group w)
  = stored_material w.
Proof.
  intros (?&?&?&?). by apply stored_material_fields; unfold write_keystore;
    cbn [ks]; apply lookup_insert_ne.
Qed.

(** *** The blocks of [_generate_keystores] *)

Lemma build_keystore_run cfg pwd_attr path gc gk cert key user group w :
  (∀ w', ks w' = <[pwd_attr := genRandomPassword None (seed w)]> (ks w) →
         gc w' = (Ok cert, w')) →
  (∀ w', ks w' = <[pwd_attr := genRandomPassword None (seed w)]> (ks w) →
         gk w' = (Ok key, w')) →
  cfg !! "user" = Some user → cfg !! "group" = Some group →
  build_keystore cfg pwd_attr path gc gk w =
    (Ok tt, write_keystore pwd_attr path cert key user group w).
Proof.
  intros Hc Hk Hu Hg. unfold build_keystore, write_keystore. py_eval.
  rewrite Hc by done. py_eval. rewrite Hk by done. by py_eval.
Qed.

Lemma current_after_password cfg pwd_attr pwd w w' m :
  password_field pwd_attr →
  current_material cfg w = Some m →
  ks w' = <[pwd_attr := pwd]> (ks w) →
  current_material cfg w' = Some m.
Proof.
  intros (?&?&?&?) Hm Hks. rewrite <-Hm. apply current_material_fields.
  by apply stored_material_fields; rewrite Hks; apply lookup_insert_ne.
Qed.

Lemma quorum_keystore_block_run cfg w m user group :
  stored_material w = Some m → current_material cfg w = Some m →
  cfg !! "user" = Some user → cfg !! "group" = Some group →
  quorum_keystore_block cfg w =
    (Ok tt,
     if complete (m_quorum_cert m) (m_quorum_key m)
     then write_keystore "ks_zookeeper_pwd" (get_quorum_keystore cfg)
            (m_quorum_cert m) (m_quorum_key m) user group w
     else w).
Proof.
  intros (Sqc & Sqk & _)%stored_material_inv Hcur Hu Hg.
  unfold quorum_keystore_block, complete, nonempty. py_eval.
  destruct (0 <? String.length (m_quorum_cert m))%nat; py_eval; [|done].
  destruct (0 <? String.length (m_quorum_key m))%nat; py_eval; [|done].
  apply build_keystore_run; [| |done..]; intros w' Hks;
    eapply getters_current, current_after_password; eauto;
    by repeat split.
Qed.

Lemma client_keystore_block_run cfg w m user group :
  stored_material w = Some m → current_material cfg w = Some m →
  cfg !! "user" = Some user → cfg !! "group" = Some group →
  client_keystore_block cfg w =
    (Ok tt,
     if complete (m_ssl_cert m) (m_ssl_key m)
     then write_keystore "ks_password" (get_ssl_keystore cfg)
            (m_ssl_cert m) (m_ssl_key m) user group w
     else w).
Proof.
  intros (_ & _ & Ssc & Ssk)%stored_material_inv Hcur Hu Hg.
  unfold client_keystore_block, complete, nonempty. py_eval.
  destruct (0 <? String.length (m_ssl_cert m))%nat; py_eval; [|done].
  destruct (0 <? String.length (m_ssl_key m))%nat; py_eval; [|done].
  apply build_keystore_run; [| |done..]; intros w' Hks;
    eapply getters_current, current_after_password; eauto;
    by repeat split.
Qed.

(** Lines 151-180 as a whole. *)
Lemma keystore_blocks_run cfg w m user group :
  stored_material w = Some m → current_material cfg w = Some m →
  cfg !! "user" = Some user → cfg !! "group" = Some group →
  (quorum_keystore_block cfg;; client_keystore_block cfg) w =
    (Ok tt, rebuild cfg user group m w).
Proof.
  intros Hst Hcur Hu Hg. unfold rebuild.
  cbv [bind]. rewrite (quorum_keystore_block_run _ _ m user group) by done.
  destruct (complete (m_quorum_cert m) (m_quorum_key m)).
  - apply client_keystore_block_run; [| |done..].
    + by rewrite stored_write_keystore.
    + rewrite <-Hcur.
      by apply current_material_fields, stored_write_keystore.
  - by apply client_keystore_block_run.
Qed.

Lemma already_generated_external cfg m w :
  external_material cfg = Some m → already_generated cfg w = (Ok false, w).
Proof.
  intros (g & Hg & Hmode & _)%external_material_inv.
  unfold already_generated. by py_eval.
Qed.

Lemma already_generated_ca cfg g m w :
  cfg !! "generate-root-ca" = Some g → truthy g = true →
  stored_material w = Some m →
  already_generated cfg w = (Ok (all_populated m), w).
Proof.
  intros Hg Hmode (?&?&?&?)%stored_material_inv.
  unfold already_generated, all_populated, complete, nonempty. py_eval.
  by repeat (match goal with |- context [(0 <? ?n)%nat] =>
               destruct (0 <? n)%nat end; py_eval).
Qed.

Lemma certificates_remain_the_same_run cfg m0 m w :
  external_material cfg = Some m → stored_material w = Some m0 →
  certificates_remain_the_same cfg w = (Ok (compared_equal m0 m), w).
Proof.
  intros Hext (Sqc & Sqk & Ssc & Ssk)%stored_material_inv.
  unfold certificates_remain_the_same, compared_equal. py_eval.
  rewrite (get_quorum_cert_external _ m) by done. py_eval.
  destruct (String.eqb (m_quorum_cert m0) (m_quorum_cert m)); [|done].
  py_eval. rewrite (get_quorum_key_external _ m) by done. py_eval.
  destruct (String.eqb (m_quorum_key m0) (m_quorum_key m)) eqn:Hqk; [|done].
  py_eval. rewrite (get_ssl_cert_external _ m) by done. py_eval.
  destruct (String.eqb (m_ssl_cert m0) (m_ssl_cert m)); [|done].
  py_eval. rewrite (get_quorum_key_external _ m) by done. by py_eval.
Qed.

Lemma store_supplied_material_run cfg m w :
  external_material cfg = Some m →
  store_supplied_material cfg w = (Ok tt, store_material m w).
Proof.
  intros Hext. unfold store_supplied_material, store_material. py_eval.
  rewrite (get_quorum_cert_external _ m) by done. py_eval.
  rewrite (get_quorum_key_external _ m) by done. py_eval.
  rewrite (get_ssl_cert_external _ m) by done. py_eval.
  rewrite (get_ssl_key_external _ m) by done. by py_eval.
Qed.

Lemma generate_root_cas_run cfg user group w :
  cfg !! "user" = Some user → cfg !! "group" = Some group →
  generate_root_cas cfg w = (Ok tt, after_generation cfg user group w).
Proof.
  intros Hu Hg.
  unfold generate_root_cas, self_signed, after_generation, store_material,
    generated_material.
  by py_eval.
Qed.

(** ** What [_generate_keystores] computes *)

(** Without [generate-root-ca]: the call returns, and it changes the world
    exactly when one of the three compared fields differs. *)
Lemma generate_keystores_external cfg w m m0 user group :
  external_material cfg = Some m →
  stored_material w = Some m0 →
  cfg !! "user" = Some user → cfg !! "group" = Some group →
  _generate_keystores cfg w =
    (Ok tt, if compared_equal m0 m then w
            else rebuild cfg user group m (store_material m w)).
Proof.
  intros Hext Hst Hu Hgr.
  pose proof Hext as (g & Hg & Hmode & _)%external_material_inv.
  unfold _generate_keystores. cbv [bind].
  rewrite (already_generated_external _ m) by done.
  py_eval. rewrite (certificates_remain_the_same_run _ m0 m) by done.
  destruct (compared_equal m0 m); [done|].
  rewrite (store_supplied_material_run _ m) by done.
  apply keystore_blocks_run; [|  |done..].
  - apply stored_store_material.
  - unfold current_material. by rewrite Hg, Hmode.
Qed.

(** With [generate-root-ca]: the call returns, and it changes the world
    exactly when one of the four stored fields is empty. *)
Lemma generate_keystores_ca cfg g w m0 user group :
  cfg !! "generate-root-ca" = Some g → truthy g = true →
  stored_material w = Some m0 →
  cfg !! "user" = Some user → cfg !! "group" = Some group →
  _generate_keystores cfg w =
    (Ok tt, if all_populated m0 then w
            else rebuild cfg user group (generated_material cfg user group w)
                   (after_generation cfg user group w)).
Proof.
  intros Hg Hmode Hst Hu Hgr.
  unfold _generate_keystores. cbv [bind].
  rewrite (already_generated_ca _ g m0) by done.
  destruct (all_populated m0); [done|].
  py_eval. rewrite (generate_root_cas_run _ user group) by done.
  apply keystore_blocks_run; [| |done..].
  - apply stored_store_material.
  - unfold current_material. rewrite Hg, Hmode. apply stored_store_material.
Qed.

End Runs.

Section Rebuild.
Context `{Collaborators}.
Implicit Types (cfg : gmap string value) (w : world) (m : material).

Lemma compared_equal_refl m : compared_equal m m = true.
Proof. unfold compared_equal. by rewrite !String.eqb_refl. Qed.

Lemma compared_equal_ssl_key m0 m sk :
  compared_equal m0
    (Material (m_quorum_cert m) (m_quorum_key m) (m_ssl_cert m) sk)
  = compared_equal m0 m.
Proof. done. Qed.

Lemma stored_rebuild cfg user group m w :
  stored_material (rebuild cfg user group m w) = stored_material w.
Proof.
  unfold rebuild.
  destruct (complete (m_quorum_cert m) (m_quorum_key m)),
    (complete (m_ssl_cert m) (m_ssl_key m));
    by rewrite ?stored_write_keystore by (by repeat split).
Qed.

Lemma generated_all_populated cfg user group w :
  generator_populates user group →
  all_populated (generated_material cfg user group w) = true.
Proof.
  intros Hgen. unfold all_populated, generated_material. cbn.
  by rewrite !Hgen.
Qed.

(** A second call right after a first one finds nothing to do. *)
Lemma generate_keystores_twice_external cfg w m m0 user group :
  external_material cfg = Some m →
  stored_material w = Some m0 →
  cfg !! "user" = Some user → cfg !! "group" = Some group →
  ∃ w1, _generate_keystores cfg w = (Ok tt, w1) ∧
        _generate_keystores cfg w1 = (Ok tt, w1).
Proof.
  intros Hext Hst Hu Hg.
  rewrite (generate_keystores_external _ _ m m0 user group) by done.
  destruct (compared_equal m0 m) eqn:Hcmp.
  - exists w. split; [done|].
    rewrite (generate_keystores_external _ _ m m0 user group) by done.
    by rewrite Hcmp.
  - eexists. split; [done|].
    rewrite (generate_keystores_external _ _ m m user group); [| done | | done..].
    + by rewrite compared_equal_refl.
    + rewrite stored_rebuild. apply stored_store_material.
Qed.

Lemma generate_keystores_twice_ca cfg g w m0 user group :
  cfg !! "generate-root-ca" = Some g → truthy g = true →
  generator_populates user group →
  stored_material w = Some m0 →
  cfg !! "user" = Some user → cfg !! "group" = Some group →
  ∃ w1, _generate_keystores cfg w = (Ok tt, w1) ∧
        _generate_keystores cfg w1 = (Ok tt, w1).
Proof.
  intros Hg Hmode Hgen Hst Hu Hgr.
  rewrite (generate_keystores_ca _ g _ m0 user group) by done.
  destruct (all_populated m0) eqn:Hpop.
  - exists w. split; [done|].
    rewrite (generate_keystores_ca _ g _ m0 user group) by done.
    by rewrite Hpop.
  - eexists. split; [done|].
    rewrite (generate_keystores_ca _ g _
               (generated_material cfg user group w) user group);
      [| done.. | | done | done].
    + by rewrite generated_all_populated.
    + rewrite stored_rebuild. apply stored_store_material.
Qed.

End Rebuild.

(** * Key material and keystores *)

Section OnSample.
Local Existing Instance sample.

(** C1. The operator replaces the client key of a running unit: the stored
    material is (A, B, C, D), the configuration now supplies (A, B, C, E).
    The claim asks for the change to be detected and for the four fields to
    be updated. The check of lines 140-143 compares the quorum certificate,
    the quorum key, the client certificate and the quorum key once more; the
    client key is not looked at, and [_generate_keystores] returns through
    its "nothing to do" exit with the world untouched: the stored client key
    is still D and no keystore is rebuilt. *)
Theorem C1_client_key_change_not_detected :
  let cfg := supplied_config "QQ==" "Qg==" "Qw==" "RQ==" in
  let w := constructed (supplied_config "QQ==" "Qg==" "Qw==" "RA==") in
  stored_material w = Some (Material "A" "B" "C" "D") ∧
  external_material cfg = Some (Material "A" "B" "C" "E") ∧
  get_ssl_key cfg w = (Ok "E", w) ∧
  _generate_keystores cfg w = (Ok tt, w).
Proof. vm_compute. by repeat split. Qed.

(** C2, counterexample. The operator replaces the quorum certificate only
    (A becomes E); the client certificate and key, C and D, are the ones the
    client keystore was built from. The call still rebuilds the client
    keystore and replaces its password. *)
Lemma C2_client_keystore_rebuilt_without_change :
  let cfg := supplied_config "RQ==" "Qg==" "Qw==" "RA==" in
  let w := constructed (supplied_config "QQ==" "Qg==" "Qw==" "RA==") in
  let w1 := (_generate_keystores cfg w).2 in
  (ks w !! "ssl_cert", ks w !! "ssl_key") = (Some "C", Some "D") ∧
  (get_ssl_cert cfg w, get_ssl_key cfg w) = ((Ok "C", w), (Ok "D", w)) ∧
  keystores_at (get_ssl_keystore cfg) (trace w) = [("pw2", "C", "D")] ∧
  ks w !! "ks_password" = Some "pw2" ∧
  keystores_at (get_ssl_keystore cfg) (trace w1)
    = [("pw6", "C", "D"); ("pw2", "C", "D")] ∧
  ks w1 !! "ks_password" = Some "pw6".
Proof. vm_compute. by repeat split. Qed.

End OnSample.

Section Keystores.
Context `{Collaborators}.
Implicit Types (cfg : gmap string value) (w : world) (m : material).

(** C2, as amended. A second call of [_generate_keystores] under the same
    configuration is a no-op: it returns the world of the first call as it
    is, so nothing is written, no password is drawn and the stored passwords
    stay. A first call that finds the supplied material equal to the stored
    one, or (with [generate-root-ca]) all four fields populated, changes
    nothing either. A call that finds a difference in one of the fields it
    compares, or an empty field, stores the material and rebuilds the
    keystore of every scope whose certificate and key are both non-empty,
    each under a freshly drawn password, whether or not that scope's own
    material changed. *)
Theorem C2_second_call_noop_and_rebuild_of_all_scopes cfg w m0 user group :
  stored_material w = Some m0 →
  cfg !! "user" = Some user → cfg !! "group" = Some group →
  (∀ m, external_material cfg = Some m →
     ∃ w1, _generate_keystores cfg w = (Ok tt, w1) ∧
           _generate_keystores cfg w1 = (Ok tt, w1) ∧
           (m0 = m → w1 = w) ∧
           (compared_equal m0 m = false →
            w1 = rebuild cfg user group m (store_material m w))) ∧
  (∀ g, cfg !! "generate-root-ca" = Some g → truthy g = true →
     generator_populates user group →
     ∃ w1, _generate_keystores cfg w = (Ok tt, w1) ∧
           _generate_keystores cfg w1 = (Ok tt, w1) ∧
           (all_populated m0 = true → w1 = w) ∧
           (all_populated m0 = false →
            w1 = rebuild cfg user group (generated_material cfg user group w)
                   (after_generation cfg user group w))).
Proof.
  intros Hst Hu Hgr. split.
  - intros m Hext.
    destruct (generate_keystores_twice_external cfg w m m0 user group)
      as (w1 & Hfirst & Hsecond); [done..|].
    exists w1. split_and!; [done..| |].
    + intros ->. rewrite (generate_keystores_external _ _ m m user group) in Hfirst
        by done.
      rewrite compared_equal_refl in Hfirst. by simplify_eq.
    + intros Hcmp.
      rewrite (generate_keystores_external _ _ m m0 user group) in Hfirst
        by done.
      rewrite Hcmp in Hfirst. by simplify_eq.
  - intros g Hg Hmode Hgen.
    destruct (generate_keystores_twice_ca cfg g w m0 user group)
      as (w1 & Hfirst & Hsecond); [done..|].
    exists w1. split_and!; [done..| |]; intros Hpop;
      rewrite (generate_keystores_ca _ g _ m0 user group) in Hfirst by done;
      rewrite Hpop in Hfirst; by simplify_eq.
Qed.

End Keystores.

Section KeystoresOnSample.
Local Existing Instance sample.

Lemma sample_generator_populates user group : generator_populates user group.
Proof. intros certname n. reflexivity. Qed.

Lemma C2_witness :
  (let cfg := supplied_config "RQ==" "Qg==" "Qw==" "RA==" in
   let w := constructed (supplied_config "QQ==" "Qg==" "Qw==" "RA==") in
   ∃ w1, _generate_keystores cfg w = (Ok tt, w1) ∧
         _generate_keystores cfg w1 = (Ok tt, w1)) ∧
  (let w := (ks_set_default "quorum_cert" "";; ks_set_default "quorum_key" "";;
             ks_set_default "ssl_cert" "";; ks_set_default "ssl_key" "") fresh in
   ∃ w1, _generate_keystores root_ca_config w.2 = (Ok tt, w1) ∧
         _generate_keystores root_ca_config w1 = (Ok tt, w1)).
Proof.
  split.
  - destruct (C2_second_call_noop_and_rebuild_of_all_scopes
                (supplied_config "RQ==" "Qg==" "Qw==" "RA==")
                (constructed (supplied_config "QQ==" "Qg==" "Qw==" "RA=="))
                (Material "A" "B" "C" "D") (VStr "cp-kafka") (VStr "confluent"))
      as [Hext _]; [vm_compute; reflexivity..|].
    destruct (Hext (Material "E" "B" "C" "D")) as (w1 & ? & ? & _);
      [vm_compute; reflexivity|].
    exists w1; split; assumption.
  - destruct (C2_second_call_noop_and_rebuild_of_all_scopes root_ca_config
                ((ks_set_default "quorum_cert" "";;
                  ks_set_default "quorum_key" "";;
                  ks_set_default "ssl_cert" "";;
                  ks_set_default "ssl_key" "") fresh).2
                (Material "" "" "" "") (VStr "cp-kafka") (VStr "confluent"))
      as [_ Hca]; [vm_compute; reflexivity..|].
    destruct (Hca (VBool true)) as (w1 & ? & ? & _);
      [vm_compute; reflexivity | reflexivity | apply sample_generator_populates |].
    exists w1; split; assumption.
Defined.

End KeystoresOnSample.

(** * Frames: what a run leaves alone *)

Section Frame.
Variable R : world → world → Prop.
Hypothesis R_refl : ∀ w, R w w.
Hypothesis R_trans : ∀ w1 w2 w3, R w1 w2 → R w2 w3 → R w1 w3.

Lemma frame_ret {A} (a : A) : frame R (ret a).
Proof. intros w. apply R_refl. Qed.

Lemma frame_raise {A} e : frame R (@raise A e).
Proof. intros w. apply R_refl. Qed.

Lemma frame_lift {A} (r : result A) : frame R (lift r).
Proof. intros w. apply R_refl. Qed.

Lemma frame_ks_get attr : frame R (ks_get attr).
Proof. intros w. unfold ks_get. destruct (ks w !! attr); apply R_refl. Qed.

Lemma frame_get_service : frame R get_service.
Proof. intros w. unfold get_service. destruct (service w); apply R_refl. Qed.

Lemma frame_config_item cfg key : frame R (config_item cfg key).
Proof.
  intros w. unfold config_item. destruct (cfg !! key); apply R_refl.
Qed.

Lemma frame_bind {A B} (m : M A) (f : A → M B) :
  frame R m → (∀ a, frame R (f a)) → frame R (bind m f).
Proof.
  intros Hm Hf w. unfold bind. specialize (Hm w).
  destruct (m w) as [[a|e] w1]; cbn in *; [|done].
  eapply R_trans; [done|]. apply Hf.
Qed.

Lemma frame_if {A} (b : bool) (m1 m2 : M A) :
  frame R m1 → frame R m2 → frame R (if b then m1 else m2).
Proof. by destruct b. Qed.

Lemma frame_andM a b : frame R a → frame R b → frame R (andM a b).
Proof.
  intros Ha Hb. apply frame_bind; [done|].
  intros x. apply frame_if; [done | apply frame_ret].
Qed.

Lemma frame_ks_set attr s :
  (∀ w, R w (World (<[attr := s]> (ks w)) (service w) (seed w) (trace w))) →
  frame R (ks_set attr s).
Proof. intros HR w. apply HR. Qed.

Lemma frame_ks_set_default attr s :
  (∀ w, R w (World (<[attr := s]> (ks w)) (service w) (seed w) (trace w))) →
  frame R (ks_set_default attr s).
Proof.
  intros HR w. unfold ks_set_default.
  destruct (ks w !! attr); [apply R_refl | apply HR].
Qed.

Lemma frame_call e :
  (∀ w, R w (World (ks w) (service w) (seed w) (e :: trace w))) →
  frame R (call e).
Proof. intros HR w. apply HR. Qed.

Lemma frame_draw :
  (∀ w, R w (World (ks w) (service w) (S (seed w)) (trace w))) →
  frame R draw.
Proof. intros HR w. apply HR. Qed.

Lemma frame_set_service svc :
  (∀ w, R w (World (ks w) (Some svc) (seed w) (trace w))) →
  frame R (set_service svc).
Proof. intros HR w. apply HR. Qed.

Lemma frame_ks_nonempty attr : frame R (ks_nonempty attr).
Proof.
  apply frame_bind; [apply frame_ks_get | intros; apply frame_ret].
Qed.

End Frame.

(** Breaks a goal [frame R m] down along the structure of [m]; what is left
    are the steps that do change the world. *)
Ltac frame_step :=
  first
    [ assumption
    | apply frame_ret; done
    | apply frame_raise; done
    | apply frame_lift; done
    | apply frame_ks_get; done
    | apply frame_get_service; done
    | apply frame_config_item; done
    | apply frame_ks_nonempty; [done..]
    | apply frame_andM; [done..| |]
    | apply frame_ks_set; [done..| intros ?]
    | apply frame_ks_set_default; [done..| intros ?]
    | apply frame_call; [done..| intros ?]
    | apply frame_draw; [done..| intros ?]
    | apply frame_set_service; [done..| intros ?]
    | apply frame_bind; [done..| | intros ?]
    | apply frame_if; [done..| |]
    | match goal with
      | |- frame _ (match ?x with _ => _ end) => destruct x
      end ].

Ltac frame_auto := repeat frame_step.

(** Closes [attr ∉ [f1; ...; fn]] on literal field names. *)
Ltac not_a_field :=
  rewrite ?not_elem_of_cons; repeat split;
  first [discriminate | apply not_elem_of_nil].

Section Frames.
Context `{Collaborators}.
Implicit Types (cfg : gmap string value) (w : world).

Lemma same_emitted_refl w : same_emitted w w.
Proof. done. Qed.

Lemma same_emitted_trans w1 w2 w3 :
  same_emitted w1 w2 → same_emitted w2 w3 → same_emitted w1 w3.
Proof. unfold same_emitted. congruence. Qed.

Lemma same_field_refl attr w : same_field attr w w.
Proof. done. Qed.

Lemma same_field_trans attr w1 w2 w3 :
  same_field attr w1 w2 → same_field attr w2 w3 → same_field attr w1 w3.
Proof. unfold same_field. congruence. Qed.

Lemma same_store_refl w : same_store w w.
Proof. done. Qed.

Lemma same_store_trans w1 w2 w3 :
  same_store w1 w2 → same_store w2 w3 → same_store w1 w3.
Proof. unfold same_store. intros [-> ->] [-> ->]. done. Qed.

Lemma frame_getters R cfg :
  (∀ w, R w w) → (∀ w1 w2 w3, R w1 w2 → R w2 w3 → R w1 w3) →
  frame R (get_quorum_cert cfg) ∧ frame R (get_quorum_key cfg) ∧
  frame R (get_ssl_cert cfg) ∧ frame R (get_ssl_key cfg).
Proof.
  intros Hrefl Htrans.
  unfold get_quorum_cert, get_quorum_key, get_ssl_cert, get_ssl_key.
  by split_and!; frame_auto.
Qed.

(** Up to its readiness check, [_render_zk_properties] emits nothing and
    leaves the stored state alone: it only announces material to the
    relations. *)
Lemma tls_props_same_emitted cfg : frame same_emitted (tls_props cfg).
Proof.
  pose proof same_emitted_refl. pose proof same_emitted_trans.
  destruct (frame_getters same_emitted cfg) as (? & ? & ? & ?); [done..|].
  unfold tls_props, first_yaml_value, client_tls_props, quorum_tls_props.
  by frame_auto.
Qed.

Lemma tls_props_same_store cfg : frame same_store (tls_props cfg).
Proof.
  pose proof same_store_refl. pose proof same_store_trans.
  destruct (frame_getters same_store cfg) as (? & ? & ? & ?); [done..|].
  unfold tls_props, first_yaml_value, client_tls_props, quorum_tls_props.
  by frame_auto.
Qed.

(** A field name outside a list of literals differs from each of them. *)
Lemma not_elem_of_fields (attr : string) (fields : list string) :
  attr ∉ fields → foldr (λ f P, attr ≠ f ∧ P) True fields.
Proof.
  induction fields as [|f fields IH]; cbn; [done|].
  intros [? ?]%not_elem_of_cons. auto.
Qed.

Lemma generate_keystores_same_field attr cfg :
  attr ∉ ["quorum_cert"; "quorum_key"; "ssl_cert"; "ssl_key";
          "ks_zookeeper_pwd"; "ks_password"] →
  frame (same_field attr) (_generate_keystores cfg).
Proof.
  intros (?&?&?&?&?&?&_)%not_elem_of_fields.
  pose proof (same_field_refl attr). pose proof (same_field_trans attr).
  destruct (frame_getters (same_field attr) cfg) as (? & ? & ? & ?); [done..|].
  unfold _generate_keystores, already_generated, generate_root_cas,
    certificates_remain_the_same, store_supplied_material,
    quorum_keystore_block, client_keystore_block, build_keystore,
    self_signed, gen_password, ks_same.
  frame_auto;
    (unfold same_field; cbn [ks]; by rewrite ?lookup_insert_ne by done).
Qed.

Lemma render_same_field attr cfg cl :
  frame (same_field attr) (_render_zk_properties cfg cl).
Proof.
  pose proof (same_field_refl attr). pose proof (same_field_trans attr).
  destruct (frame_getters (same_field attr) cfg) as (? & ? & ? & ?); [done..|].
  unfold _render_zk_properties, tls_props, first_yaml_value, client_tls_props,
    quorum_tls_props.
  by frame_auto.
Qed.

Lemma on_config_changed_same_field attr cfg cl :
  attr ∉ ["quorum_cert"; "quorum_key"; "ssl_cert"; "ssl_key";
          "ks_zookeeper_pwd"; "ks_password"] →
  frame (same_field attr) (_on_config_changed cfg cl).
Proof.
  intros Hattr.
  pose proof (same_field_refl attr). pose proof (same_field_trans attr).
  pose proof (generate_keystores_same_field attr cfg Hattr).
  pose proof (render_same_field attr cfg cl).
  unfold _on_config_changed, _render_zk_log4j_properties, _check_if_ready.
  by frame_auto.
Qed.

Lemma init_same_field attr cfg :
  attr ∉ ["quorum_cert"; "quorum_key"; "ssl_cert"; "ssl_key";
          "ks_zookeeper_pwd"; "ks_password"; "ts_zookeeper_pwd"] →
  frame (same_field attr) (__init__ cfg).
Proof.
  intros Hattr.
  assert (frame (same_field attr) (_generate_keystores cfg)).
  { apply generate_keystores_same_field. intros Hin. apply Hattr.
    revert Hin. rewrite !elem_of_cons. tauto. }
  apply not_elem_of_fields in Hattr as (?&?&?&?&?&?&?&_).
  pose proof (same_field_refl attr). pose proof (same_field_trans attr).
  unfold __init__.
  frame_auto;
    (unfold same_field; cbn [ks]; by rewrite ?lookup_insert_ne by done).
Qed.

End Frames.

(** * Inversion of successful runs *)

Lemma bind_Ok_inv {A B} (m : M A) (f : A → M B) w b w2 :
  bind m f w = (Ok b, w2) →
  ∃ a w1, m w = (Ok a, w1) ∧ f a w1 = (Ok b, w2).
Proof.
  unfold bind. destruct (m w) as [[a|e] w1]; [eauto | done].
Qed.

Lemma ret_inv {A} (a : A) w r w' : ret a w = (r, w') → r = Ok a ∧ w' = w.
Proof. by intros [= <- <-]. Qed.

Lemma lift_inv {A} (r0 : result A) w r w' :
  lift r0 w = (r, w') → r = r0 ∧ w' = w.
Proof. by intros [= <- <-]. Qed.

Lemma ks_get_Ok_inv attr w s w' :
  ks_get attr w = (Ok s, w') → ks w !! attr = Some s ∧ w' = w.
Proof. unfold ks_get. destruct (ks w !! attr); by intros [= <- <-]. Qed.

Lemma config_item_Ok_inv cfg key w v w' :
  config_item cfg key w = (Ok v, w') → cfg !! key = Some v ∧ w' = w.
Proof.
  unfold config_item. destruct (cfg !! key); by intros [= <- <-].
Qed.

Lemma call_inv e w r w' :
  call e w = (r, w') →
  r = Ok tt ∧ w' = World (ks w) (service w) (seed w) (e :: trace w).
Proof. by intros [= <- <-]. Qed.

Lemma ks_nonempty_Ok_inv attr w b w' :
  ks_nonempty attr w = (Ok b, w') →
  ∃ s, ks w !! attr = Some s ∧ b = nonempty s ∧ w' = w.
Proof.
  unfold ks_nonempty, bind, ks_get, ret, nonempty.
  destruct (ks w !! attr) as [s|]; [|done]. intros [= <- <-]. eauto.
Qed.

(** [len(self.ks.c) > 0 and len(self.ks.k) > 0], when it evaluates. *)
Lemma both_nonempty_Ok_inv cert_attr key_attr w b w' :
  andM (ks_nonempty cert_attr) (ks_nonempty key_attr) w = (Ok b, w') →
  w' = w ∧
  ∃ cert, ks w !! cert_attr = Some cert ∧
    if nonempty cert
    then ∃ key, ks w !! key_attr = Some key ∧ b = nonempty key
    else b = false.
Proof.
  unfold andM. intros (b1 & w1 & Hc & Hrest)%bind_Ok_inv.
  apply ks_nonempty_Ok_inv in Hc as (cert & Hc & -> & ->).
  destruct (nonempty cert) eqn:Hne.
  - apply ks_nonempty_Ok_inv in Hrest as (key & Hk & -> & ->).
    split; [done|]. exists cert. rewrite Hne. eauto.
  - apply ret_inv in Hrest as [[= <-] ->].
    split; [done|]. exists cert. by rewrite Hne.
Qed.

(** Decomposes the hypotheses that state that a run returned normally. *)
Ltac py_inv :=
  repeat match goal with
  | H : bind _ _ _ = (Ok _, _) |- _ =>
      let a := fresh "a" in let w := fresh "w" in let H1 := fresh "Hrun" in
      apply bind_Ok_inv in H as (a & w & H1 & H);
      cbv beta zeta in H1; cbv beta zeta in H
  | H : ret _ _ = (_, _) |- _ => apply ret_inv in H as [? ?]; simplify_eq
  | H : raise _ _ = (Ok _, _) |- _ => discriminate H
  | H : lift _ _ = (_, _) |- _ => apply lift_inv in H as [? ?]; simplify_eq
  | H : ks_get _ _ = (Ok _, _) |- _ =>
      apply ks_get_Ok_inv in H as [? ?]; subst
  | H : config_item _ _ _ = (Ok _, _) |- _ =>
      apply config_item_Ok_inv in H as [? ?]; subst
  | H : call _ _ = (_, _) |- _ => apply call_inv in H as [? ?]; simplify_eq
  | H : (if ?b then _ else _) _ = (Ok _, _) |- _ => destruct b eqn:?
  end.

(** [len(self.ks.c) > 0 and len(self.ks.k) > 0], on stored fields. *)
Lemma both_nonempty_run cert_attr key_attr w cert key :
  ks w !! cert_attr = Some cert → ks w !! key_attr = Some key →
  andM (ks_nonempty cert_attr) (ks_nonempty key_attr) w
  = (Ok (complete cert key), w).
Proof.
  intros Hc Hk. unfold andM, ks_nonempty, bind, ks_get, ret, complete, nonempty.
  rewrite Hc. destruct (0 <? String.length cert)%nat; [|done].
  by rewrite Hk.
Qed.

(** * Rendering [zookeeper.properties] *)

Section Render.
Context `{Collaborators}.
Implicit Types (cfg : gmap string value) (w : world) (cl : cluster).

(** The readiness check sits after the property building: while the cluster
    is not ready the method ends the way [tls_props] ends, with [Blocked]
    in place of the properties. *)
Lemma render_not_ready cfg cl w :
  is_ready cl = false →
  _render_zk_properties cfg cl w =
    match tls_props cfg w with
    | (Ok _, w') => (Ok (Blocked "Waiting for cluster to bootstrap"), w')
    | (Raise e, w') => (Raise e, w')
    end.
Proof.
  intros Hready. unfold _render_zk_properties, bind. rewrite Hready.
  by destruct (tls_props cfg w) as [[p|e] w'].
Qed.

End Render.


Section NotReady.
Context `{Collaborators}.
Implicit Types (cfg : gmap string value) (w : world) (cl : cluster).


End NotReady.


(** * The truststore password *)

Section TsPassword.
Context `{Collaborators}.
Implicit Types (cfg : gmap string value) (w : world) (cl : cluster).

Lemma complete_inv cert key :
  complete cert key = true →
  (0 <? String.length cert)%nat = true ∧ (0 <? String.length key)%nat = true.
Proof. unfold complete, nonempty. by intros ?%andb_true_iff. Qed.

(** Once the client branch is entered with no stored [ts_password], the
    method ends in an exception. *)
Lemma client_tls_props_raises cfg zk_props w :
  ks w !! "ts_password" = None →
  raised (client_tls_props cfg zk_props w).
Proof.
  intros Hts. unfold client_tls_props. py_eval.
  destruct (ks w !! "ks_password"); py_eval; done.
Qed.

Lemma tls_props_raises cfg w sc sk :
  ks w !! "ts_password" = None →
  ks w !! "ssl_cert" = Some sc → ks w !! "ssl_key" = Some sk →
  complete sc sk = true →
  raised (tls_props cfg w).
Proof.
  intros Hts Hsc Hsk [Hc Hk]%complete_inv.
  pose proof (client_tls_props_raises cfg) as Hclient.
  unfold tls_props, first_yaml_value. py_eval.
  destruct (cfg !! "data-dir") as [dd|]; py_eval; [|done].
  destruct (yaml_safe_load dd) as [[[|[? ?] ?]|]|]; cbn [first_item_value];
    py_eval; try done.
  all: destruct (truthy (config_get cfg "zookeeper-properties" (VStr "")));
    py_eval; [done|].
  all: destruct (cfg !! "data-log-dir") as [dl|]; py_eval; [|done].
  all: destruct (yaml_safe_load dl) as [[[|[? ?] ?]|]|];
    cbn [first_item_value]; py_eval; try done.
  all: match goal with
       | |- context [client_tls_props _ ?p ?w0] =>
           specialize (Hclient p w0 Hts);
           destruct (client_tls_props cfg p w0) as [[?|?] ?]; done
       end.
Qed.

(** When the statements before it succeed, the failing read is the one of
    line 253. *)
Lemma render_raises_on_ts_password cfg cl w sc sk dd dl ks_password :
  ks w !! "ts_password" = None →
  ks w !! "ssl_cert" = Some sc → ks w !! "ssl_key" = Some sk →
  complete sc sk = true →
  first_yaml_value cfg "data-dir" w = (Ok dd, w) →
  first_yaml_value cfg "data-log-dir" w = (Ok dl, w) →
  truthy (config_get cfg "zookeeper-properties" (VStr "")) = false →
  ks w !! "ks_password" = Some ks_password →
  _render_zk_properties cfg cl w = (Raise (AttributeError "ts_password"), w).
Proof.
  intros Hts Hsc Hsk [Hc Hk]%complete_inv Hdd Hdl Hzk Hpw.
  unfold _render_zk_properties, tls_props, client_tls_props. by py_eval.
Qed.

(** C9. No statement of the charm stores [ts_password]: the constructor,
    [_generate_keystores] and [_on_config_changed] leave the field as they
    find it, so a field that is absent from the stored state of a fresh unit
    stays absent. The client-TLS branch of [_render_zk_properties] reads it:
    whenever client material is present and the field is absent, the method
    ends in an exception, and that exception is the [AttributeError] of the
    read of line 253 as soon as the statements before it succeed. *)
Theorem C9_ts_password_read_but_never_stored cfg cl :
  frame (same_field "ts_password") (__init__ cfg) ∧
  frame (same_field "ts_password") (_generate_keystores cfg) ∧
  frame (same_field "ts_password") (_on_config_changed cfg cl) ∧
  ∀ w sc sk,
    ks w !! "ts_password" = None →
    ks w !! "ssl_cert" = Some sc → ks w !! "ssl_key" = Some sk →
    complete sc sk = true →
    raised (_render_zk_properties cfg cl w) ∧
    ∀ dd dl ks_password,
      first_yaml_value cfg "data-dir" w = (Ok dd, w) →
      first_yaml_value cfg "data-log-dir" w = (Ok dl, w) →
      truthy (config_get cfg "zookeeper-properties" (VStr "")) = false →
      ks w !! "ks_password" = Some ks_password →
      _render_zk_properties cfg cl w
      = (Raise (AttributeError "ts_password"), w).
Proof.
  split_and!.
  - apply init_same_field. not_a_field.
  - apply generate_keystores_same_field. not_a_field.
  - apply on_config_changed_same_field. not_a_field.
  - intros w sc sk Hts Hsc Hsk Hcomplete. split.
    + pose proof (tls_props_raises cfg w sc sk Hts Hsc Hsk Hcomplete) as Hr.
      unfold _render_zk_properties, bind.
      by destruct (tls_props cfg w) as [[?|?] ?].
    + intros. by eapply render_raises_on_ts_password.
Qed.

End TsPassword.

(** The unit of scenario B: a fresh unit, root CAs generated by the
    constructor, a ready ensemble of three. The stored state holds no
    [ts_password] and the rendering ends in [AttributeError]. *)
Lemma C9_witness :
  let w := constructed root_ca_config in
  ks fresh !! "ts_password" = None ∧
  ks w !! "ts_password" = None ∧
  @_render_zk_properties sample root_ca_config three_members w
  = (Raise (AttributeError "ts_password"), w).
Proof.
  destruct (@C9_ts_password_read_but_never_stored sample root_ca_config
              three_members) as (Hinit & _ & _ & Hread).
  split; [reflexivity|]. split.
  - exact (Hinit fresh).
  - destruct (Hread (constructed root_ca_config)
                "cert-ssl-zookeeper-root-ca-1" "key-ssl-zookeeper-root-ca-1")
      as [_ Hexact]; [vm_compute; reflexivity..|].
    apply (Hexact (VStr "/var/lib/zookeeper") (VStr "/var/log/zookeeper")
             "pw4"); vm_compute; reflexivity.
Defined.


(** * Member ids *)

Section RegistryFacts.
Import Registry.
Implicit Types (m : gmap positive ClusterMember) (r : EnsembleState).

(** The search only looks at the ids from its starting point on. *)
Lemma first_free_from_ext fuel i m1 m2 :
  (∀ j, (i ≤ j)%positive → m1 !! j = m2 !! j) →
  first_free_from fuel i m1 = first_free_from fuel i m2.
Proof.
  revert i. induction fuel as [|fuel IH]; intros i Hext; [done|].
  cbn. rewrite <-(Hext i) by lia. destruct (m1 !! i); [|done].
  apply IH. intros j Hj. apply Hext. lia.
Qed.

(** With enough fuel the search stops on a free id, having met only taken
    ids on its way. *)
Lemma first_free_from_spec fuel i m :
  (size m ≤ fuel)%nat →
  (∀ j, (j < i)%positive → m !! j = None) →
  m !! first_free_from fuel i m = None ∧
  (i ≤ first_free_from fuel i m)%positive ∧
  ∀ j, (i ≤ j)%positive → (j < first_free_from fuel i m)%positive →
       is_Some (m !! j).
Proof.
  revert i m. induction fuel as [|fuel IH]; intros i m Hsize Hbelow.
  - assert (m = ∅) as -> by (apply map_size_empty_inv; lia).
    cbn. split_and!; [done | lia | intros; lia].
  - cbn. destruct (m !! i) as [x|] eqn:Hi; [|split_and!; [done | lia | intros; lia]].
    rewrite (first_free_from_ext fuel (Pos.succ i) m (delete i m)).
    2: { intros j Hj. rewrite lookup_delete_ne; [done | lia]. }
    destruct (IH (Pos.succ i) (delete i m)) as (Hfree & Hle & Htaken).
    + rewrite map_size_delete_Some by eauto. lia.
    + intros j Hj. destruct (decide (j = i)) as [->|Hne].
      * apply lookup_delete_eq.
      * rewrite lookup_delete_ne by done. apply Hbelow. lia.
    + set (k := first_free_from fuel (Pos.succ i) (delete i m)) in *.
      split_and!.
      * rewrite lookup_delete_ne in Hfree; [done | lia].
      * lia.
      * intros j Hj1 Hj2. destruct (decide (j = i)) as [->|Hne]; [eauto|].
        rewrite <-(lookup_delete_ne m i j) by done. apply Htaken; lia.
Qed.

Lemma first_free_spec m :
  m !! first_free m = None ∧
  ∀ j, (j < first_free m)%positive → is_Some (m !! j).
Proof.
  destruct (first_free_from_spec (size m) 1 m) as (Hfree & _ & Htaken);
    [done | intros; lia |].
  split; [done|]. intros j Hj. apply Htaken; [lia | done].
Qed.

Lemma recordPeer_selfId id ep replace r r' :
  recordPeer id ep replace r = inr r' → selfId r' = selfId r.
Proof.
  unfold recordPeer. destruct (members r !! id) as [m|].
  - destruct (String.eqb (endpoint m) ep || replace); by intros [= <-].
  - by intros [= <-].
Qed.

Lemma recordPeers_selfId peers r r' :
  recordPeers peers r = inr r' → selfId r' = selfId r.
Proof.
  revert r. induction peers as [|[id ep] rest IH]; intros r; cbn.
  - by intros [= <-].
  - destruct (recordPeer id ep false r) as [|r1] eqn:H1; [done|].
    intros ->%IH. by eapply recordPeer_selfId.
Qed.

(** C8. [assignSelfId] is idempotent and minimal. Once self has an id the
    call returns it and leaves the registry as it is, also after any
    sequence of peer announcements has been recorded; a second call returns
    what the first returned. With no id yet, the call returns the smallest
    positive integer that is not a member id, and records it against Self. *)
Theorem C8_assignSelfId_idempotent_and_minimal r :
  (∀ i, selfId r = Some i → assignSelfId r = (i, r)) ∧
  assignSelfId (assignSelfId r).2 = assignSelfId r ∧
  (∀ peers r', recordPeers peers (assignSelfId r).2 = inr r' →
     assignSelfId r' = ((assignSelfId r).1, r')) ∧
  (selfId r = None →
     let i := (assignSelfId r).1 in
     let r' := (assignSelfId r).2 in
     members r !! i = None ∧
     (∀ j, (j < i)%positive → is_Some (members r !! j)) ∧
     selfId r' = Some i ∧
     members r' !! i = Some (Member i (selfEndpoint r) Self) ∧
     ∀ j, j ≠ i → members r' !! j = members r !! j).
Proof.
  assert (Hassigned : selfId (assignSelfId r).2 = Some (assignSelfId r).1).
  { unfold assignSelfId. by destruct (selfId r) eqn:Hs. }
  split_and!.
  - intros i Hi. unfold assignSelfId. by rewrite Hi.
  - unfold assignSelfId at 1. rewrite Hassigned. by destruct (assignSelfId r).
  - intros peers r' Hrec%recordPeers_selfId.
    unfold assignSelfId at 1. by rewrite Hrec, Hassigned.
  - intros Hnone. unfold assignSelfId. rewrite Hnone. cbn.
    destruct (first_free_spec (members r)) as [Hfree Htaken].
    split_and!; [done | done | done | apply lookup_insert_eq |].
    intros j Hj. by apply lookup_insert_ne.
Qed.

End RegistryFacts.

(** The ids 1, 2 and 4 are taken: the unit gets 3, and keeps it. *)
Lemma C8_witness :
  (Registry.assignSelfId sample_registry).1 = 3%positive ∧
  Registry.members sample_registry !! 3%positive = None ∧
  Registry.assignSelfId (Registry.assignSelfId sample_registry).2
  = (3%positive, (Registry.assignSelfId sample_registry).2).
Proof.
  destruct (C8_assignSelfId_idempotent_and_minimal sample_registry)
    as (_ & _ & _ & Hmin).
  destruct (Hmin eq_refl) as (Hfree & _ & Hself & _).
  destruct (C8_assignSelfId_idempotent_and_minimal
              (Registry.assignSelfId sample_registry).2) as (Hkeep & _).
  split; [reflexivity|]. split; [exact Hfree|].
  exact (Hkeep 3%positive Hself).
Defined.

(** * Default paths *)

Section Paths.
Context `{Collaborators}.
Implicit Types (cfg : gmap string value) (w : world).

Lemma trace_extends_refl w : trace_extends w w.
Proof. by exists []. Qed.

Lemma trace_extends_trans w1 w2 w3 :
  trace_extends w1 w2 → trace_extends w2 w3 → trace_extends w1 w3.
Proof.
  intros [c1 H1] [c2 H2]. exists (c2 ++ c1)%list. by rewrite H2, H1, app_assoc.
Qed.

Lemma trace_extends_call e w :
  trace_extends w (World (ks w) (service w) (seed w) (e :: trace w)).
Proof. by exists [e]. Qed.

(** [_generate_keystores] only adds calls to the trace. *)
Lemma generate_keystores_trace_extends cfg :
  frame trace_extends (_generate_keystores cfg).
Proof.
  pose proof trace_extends_refl. pose proof trace_extends_trans.
  pose proof trace_extends_call.
  destruct (frame_getters trace_extends cfg) as (? & ? & ? & ?); [done..|].
  unfold _generate_keystores, already_generated, generate_root_cas,
    certificates_remain_the_same, store_supplied_material,
    quorum_keystore_block, client_keystore_block, build_keystore,
    self_signed, gen_password, ks_same.
  frame_auto; first [by apply trace_extends_call | by exists []].
Qed.

Lemma bind_ks_set_default {A} attr s (f : unit → M A) w :
  bind (ks_set_default attr s) f w = f tt (ks_set_default attr s w).2.
Proof.
  unfold bind, ks_set_default, ks_set. by destruct (ks w !! attr).
Qed.

Lemma trace_ks_set_default attr s w :
  trace (ks_set_default attr s w).2 = trace w.
Proof. unfold ks_set_default, ks_set. by destruct (ks w !! attr). Qed.

(** The constructor creates the directory, whatever happens afterwards. *)
Lemma init_makedirs cfg w :
  CallMakedirs "/var/ssl/private" ∈ trace (__init__ cfg w).2.
Proof.
  unfold __init__. rewrite !bind_ks_set_default.
  set (w6 := (ks_set_default "ks_zookeeper_pwd" "" _).2).
  unfold bind at 1. cbn [call].
  destruct (generate_keystores_trace_extends cfg
              (World (ks w6) (service w6) (seed w6)
                 (CallMakedirs "/var/ssl/private" :: trace w6)))
    as [calls ->].
  cbn [trace]. apply elem_of_app. right. apply elem_of_cons. by left.
Qed.

(** C10. With no paths in the configuration, the client truststore path is
    the client keystore path, ["/var/ssl/private/kafka_ssl_ks.jks"]: the
    two stores share one file. The default quorum truststore path is
    ["/var/ssl/private,kafka_quorum_ts.jks"], written with a comma; it does
    not lie under [/var/ssl/private], the directory the constructor
    creates. *)
Theorem C10_default_store_paths cfg :
  cfg !! "keystore-path" = None →
  cfg !! "truststore-path" = None →
  cfg !! "quorum-truststore-path" = None →
  get_ssl_truststore cfg = get_ssl_keystore cfg ∧
  get_ssl_keystore cfg = VStr "/var/ssl/private/kafka_ssl_ks.jks" ∧
  get_quorum_truststore cfg = VStr "/var/ssl/private,kafka_quorum_ts.jks" ∧
  under_directory "/var/ssl/private" (get_quorum_truststore cfg) = false ∧
  under_directory "/var/ssl/private" (get_ssl_keystore cfg) = true ∧
  ∀ w, CallMakedirs "/var/ssl/private" ∈ trace (__init__ cfg w).2.
Proof.
  intros Hks Hts Hqts.
  unfold get_ssl_truststore, get_ssl_keystore, get_quorum_truststore,
    config_get.
  rewrite Hks, Hts, Hqts. cbn [default].
  split_and!; [reflexivity.. |]. apply init_makedirs.
Qed.

End Paths.

Lemma C10_witness :
  @get_ssl_truststore base_config = @get_ssl_keystore base_config ∧
  get_quorum_truststore base_config
  = VStr "/var/ssl/private,kafka_quorum_ts.jks" ∧
  under_directory "/var/ssl/private" (get_quorum_truststore base_config)
  = false.
Proof.
  destruct (@C10_default_store_paths sample base_config)
    as (Hsame & _ & Hquorum & Hunder & _); [reflexivity..|].
  split; [exact Hsame|]. split; [exact Hquorum | exact Hunder].
Defined.

(** * The properties built before the readiness check *)

Section TlsProps.
Context `{Collaborators}.
Implicit Types (cfg : gmap string value) (w : world) (cl : cluster).

Lemma getters_readonly cfg w :
  (get_quorum_cert cfg w).2 = w ∧ (get_quorum_key cfg w).2 = w ∧
  (get_ssl_cert cfg w).2 = w ∧ (get_ssl_key cfg w).2 = w.
Proof.
  destruct (frame_getters (λ w w', w' = w) cfg) as (Hqc & Hqk & Hsc & Hsk);
    [done | congruence |].
  split_and!; [apply Hqc | apply Hqk | apply Hsc | apply Hsk].
Qed.

(** Inverts a successful run of [tls_props] in a world whose client
    material is known: one case per branch taken. *)
Ltac tls_props_inv Hrun Hsc Hsk :=
  unfold tls_props, first_yaml_value, client_tls_props, quorum_tls_props
    in Hrun;
  cbv zeta in Hrun; py_inv;
  repeat match goal with
  | Hc : andM (ks_nonempty "ssl_cert") (ks_nonempty "ssl_key") _ = _ |- _ =>
      rewrite (both_nonempty_run _ _ _ _ _ Hsc Hsk) in Hc;
      injection Hc as ? ?; subst
  | Hq : get_quorum_cert ?c ?w0 = (_, ?w1) |- _ =>
      let Hw := fresh "Hw" in
      pose proof (proj1 (getters_readonly c w0)) as Hw;
      rewrite Hq in Hw; cbn [snd] in Hw; subst w1; clear Hq
  end;
  cbn [ks] in *; simplify_eq.

(** With client material stored, the properties announce the secure client
    port with mutual authentication, and carry the stored passwords. *)
Lemma tls_props_client cfg w p w' sc sk :
  tls_props cfg w = (Ok p, w') →
  ks w !! "ssl_cert" = Some sc → ks w !! "ssl_key" = Some sk →
  complete sc sk = true →
  dict_get "secureClientPort" p
    = Some (config_get cfg "clientPort" (VInt 2182)) ∧
  dict_get "clientPort" p = None ∧
  dict_get "ssl.clientAuth" p = Some (VStr "need") ∧
  dict_get "ssl.keyStore.location" p
    = Some (config_get cfg "keystore-path"
              (VStr "/var/ssl/private/zookeeper.keystore.jks")) ∧
  dict_get "ssl.trustStore.location" p
    = Some (config_get cfg "truststore-path"
              (VStr "/var/ssl/private/zookeeper.truststore.jks")) ∧
  dict_get "ssl.keyStore.password" p = VStr <$> ks w !! "ks_password" ∧
  dict_get "ssl.trustStore.password" p = VStr <$> ks w !! "ts_password".
Proof.
  intros Hrun Hsc Hsk Hcomplete.
  tls_props_inv Hrun Hsc Hsk; try congruence.
  all: repeat match goal with Hl : ks _ !! _ = Some _ |- _ =>
                rewrite Hl; clear Hl end.
  all: by split_and!.
Qed.

(** Without complete client material, they announce the plaintext port. *)
Lemma tls_props_plaintext cfg w p w' sc sk :
  tls_props cfg w = (Ok p, w') →
  ks w !! "ssl_cert" = Some sc → ks w !! "ssl_key" = Some sk →
  complete sc sk = false →
  dict_get "clientPort" p = Some (config_get cfg "clientPort" (VInt 2182)) ∧
  dict_get "secureClientPort" p = None ∧
  dict_get "ssl.clientAuth" p = Some (VStr "none") ∧
  dict_get "ssl.keyStore.location" p = None.
Proof.
  intros Hrun Hsc Hsk Hcomplete.
  tls_props_inv Hrun Hsc Hsk; try congruence.
  all: by split_and!.
Qed.

(** Inverts a successful run of [tls_props] in any world. *)
Ltac tls_props_cases Hrun :=
  unfold tls_props, first_yaml_value, client_tls_props, quorum_tls_props
    in Hrun;
  cbv zeta in Hrun; py_inv;
  repeat match goal with
  | Hc : andM (ks_nonempty "ssl_cert") (ks_nonempty "ssl_key") _ = _ |- _ =>
      apply both_nonempty_Ok_inv in Hc as [? _]; subst
  | Hq : get_quorum_cert ?c ?w0 = (_, ?w1) |- _ =>
      let Hw := fresh "Hw" in
      pose proof (proj1 (getters_readonly c w0)) as Hw;
      rewrite Hq in Hw; cbn [snd] in Hw; subst w1; clear Hq
  end;
  cbn [ks] in *; simplify_eq.

(** Quorum TLS is announced exactly when [ssl_quorum] is set, with the
    quorum keystore path and the stored passwords. *)
Lemma tls_props_quorum cfg w p w' :
  tls_props cfg w = (Ok p, w') →
  if truthy (config_get cfg "ssl_quorum" (VBool false))
  then
    dict_get "sslQuorum" p = Some (VStr "true") ∧
    dict_get "ssl.quorum.keyStore.location" p
      = Some (get_quorum_keystore cfg) ∧
    dict_get "ssl.quorum.trustStore.location" p
      = Some (get_quorum_truststore cfg) ∧
    dict_get "ssl.quorum.keyStore.password" p
      = VStr <$> ks w !! "ks_zookeeper_pwd" ∧
    dict_get "ssl.quorum.trustStore.password" p
      = VStr <$> ks w !! "ts_zookeeper_pwd"
  else
    dict_get "sslQuorum" p ≠ Some (VStr "true") ∧
    dict_get "ssl.quorum.keyStore.location" p = None.
Proof.
  intros Hrun. tls_props_cases Hrun.
  all: repeat match goal with Hb : truthy _ = _ |- _ =>
                rewrite Hb; clear Hb end.
  all: repeat match goal with Hl : ks _ !! _ = Some _ |- _ =>
                rewrite Hl; clear Hl end.
  all: by split_and!.
Qed.

(** None of these properties is a per-member entry. *)
Lemma tls_props_no_server_entries cfg w p w' :
  tls_props cfg w = (Ok p, w') → server_entries p = [].
Proof. intros Hrun. by tls_props_cases Hrun. Qed.

End TlsProps.

(** * Per-member entries *)

Section Dicts.
Implicit Types (d : props) (k : string) (v : value).

Lemma dict_set_fresh k v d :
  dict_get k d = None → dict_set k v d = (d ++ [(k, v)])%list.
Proof.
  induction d as [|[k' v'] d IH]; cbn; [done|].
  destruct (String.eqb k k'); [done|]. intros Hd. by rewrite IH.
Qed.

Lemma dict_get_app_fresh k k' v d :
  dict_get k d = None → k ≠ k' → dict_get k (d ++ [(k', v)])%list = None.
Proof.
  intros Hd Hne. induction d as [|[k1 v1] d IH]; cbn in *.
  - by apply String.eqb_neq in Hne as ->.
  - destruct (String.eqb k k1); [done|]. by apply IH.
Qed.

Lemma server_entries_app d1 d2 :
  server_entries (d1 ++ d2)%list
  = (server_entries d1 ++ server_entries d2)%list.
Proof. apply List.filter_app. Qed.

Lemma server_entries_none d k :
  server_entries d = [] → is_server_key k = true → dict_get k d = None.
Proof.
  unfold server_entries.
  induction d as [|[k' v'] d IH]; cbn [List.filter dict_get fst]; [done|].
  intros Hd Hk. destruct (String.eqb k k') eqn:Heq.
  - apply String.eqb_eq in Heq as <-. by rewrite Hk in Hd.
  - destruct (is_server_key k'); [done|]. by apply IH.
Qed.

Lemma is_server_key_server_key myid : is_server_key (server_key myid) = true.
Proof. unfold is_server_key, server_key. cbn. by destruct (format myid). Qed.

End Dicts.

Section Servers.
Implicit Types (d : props) (zk_list : list (gmap string value)).

(** The loop of lines 292-294 succeeds exactly when every peer has an
    endpoint and an id. *)
Lemma add_servers_peer_entries zk_list d d' :
  add_servers zk_list d = Ok d' → is_Some (peer_entries zk_list).
Proof.
  revert d. induction zk_list as [|peer rest IH]; intros d; cbn; [eauto|].
  destruct (peer !! "endpoint") as [e|]; [|done].
  destruct (peer !! "myid") as [i|]; [|done].
  intros [es Hes]%IH. rewrite Hes. eauto.
Qed.

Lemma peer_entries_server_keys zk_list es :
  peer_entries zk_list = Some es → server_entries es = es.
Proof.
  revert es. induction zk_list as [|peer rest IH]; intros es; cbn.
  - by intros [= <-].
  - destruct (peer !! "myid") as [i|]; [|done].
    destruct (peer !! "endpoint") as [e|]; [|done].
    destruct (peer_entries rest) as [es'|]; [|done]. intros [= <-].
    unfold server_entries. cbn [List.filter fst].
    rewrite is_server_key_server_key. f_equal. by apply IH.
Qed.

(** When the ids are distinct and not in the dict yet, the loop appends the
    entries in the order of the peer list. *)
Lemma add_servers_appends zk_list d d' es :
  add_servers zk_list d = Ok d' →
  peer_entries zk_list = Some es →
  NoDup es.*1 →
  (∀ k, k ∈ es.*1 → dict_get k d = None) →
  d' = (d ++ es)%list.
Proof.
  revert d es. induction zk_list as [|peer rest IH]; intros d es; cbn.
  - intros [= <-] [= <-] _ _. by rewrite app_nil_r.
  - destruct (peer !! "endpoint") as [e|]; [|done].
    destruct (peer !! "myid") as [i|]; [|done].
    destruct (peer_entries rest) as [es'|] eqn:Hes'; [|done].
    intros Hadd [= <-] Hnodup Hfresh. cbn in Hnodup.
    apply NoDup_cons in Hnodup as [Hnotin Hnodup].
    fold (server_key i) in *.
    rewrite dict_set_fresh in Hadd by (apply Hfresh; cbn; by left).
    rewrite (IH _ es' Hadd eq_refl Hnodup).
    + by rewrite <-app_assoc.
    + intros k Hk. apply dict_get_app_fresh.
      * apply Hfresh. cbn. by right.
      * intros ->. done.
Qed.

End Servers.

(** * Runs determined by the stored state *)

Section Determined.

Lemma determined_ret {A} (a : A) : store_determined (ret a).
Proof. by intros w1 w2 Hks. Qed.

Lemma determined_raise {A} e : store_determined (@raise A e).
Proof. by intros w1 w2 Hks. Qed.

Lemma determined_lift {A} (r : result A) : store_determined (lift r).
Proof. by intros w1 w2 Hks. Qed.

Lemma determined_config_item cfg key : store_determined (config_item cfg key).
Proof. intros w1 w2 Hks. unfold config_item. by destruct (cfg !! key). Qed.

Lemma determined_ks_get attr : store_determined (ks_get attr).
Proof.
  intros w1 w2 Hks. unfold ks_get. rewrite Hks.
  by destruct (ks w2 !! attr).
Qed.

Lemma determined_call e : store_determined (call e).
Proof. by intros w1 w2 Hks. Qed.

Lemma determined_bind {A B} (m : M A) (f : A → M B) :
  store_determined m → (∀ a, store_determined (f a)) →
  store_determined (bind m f).
Proof.
  intros Hm Hf w1 w2 Hks. unfold bind.
  destruct (Hm w1 w2 Hks) as [Hr Hks'].
  destruct (m w1) as [[a1|e1] w1'], (m w2) as [[a2|e2] w2']; cbn in *;
    simplify_eq; [|done].
  by apply Hf.
Qed.

Lemma determined_if {A} (b : bool) (m1 m2 : M A) :
  store_determined m1 → store_determined m2 →
  store_determined (if b then m1 else m2).
Proof. by destruct b. Qed.

End Determined.

Ltac determined_step :=
  first
    [ assumption
    | apply determined_ret
    | apply determined_raise
    | apply determined_lift
    | apply determined_config_item
    | apply determined_ks_get
    | apply determined_call
    | apply determined_bind; [| intros ?]
    | apply determined_if
    | match goal with
      | |- store_determined (match ?x with _ => _ end) => destruct x
      end ].

Ltac determined_auto := repeat determined_step.

Section RenderDetermined.
Context `{Collaborators}.
Implicit Types (cfg : gmap string value) (w : world) (cl : cluster).

Lemma getters_determined cfg :
  store_determined (get_quorum_cert cfg) ∧
  store_determined (get_quorum_key cfg) ∧
  store_determined (get_ssl_cert cfg) ∧
  store_determined (get_ssl_key cfg).
Proof.
  unfold get_quorum_cert, get_quorum_key, get_ssl_cert, get_ssl_key.
  split_and!; determined_auto.
Qed.

(** What [_render_zk_properties] returns depends on the configuration, the
    cluster and the stored state, and on nothing else. *)
Lemma render_determined cfg cl :
  store_determined (_render_zk_properties cfg cl).
Proof.
  destruct (getters_determined cfg) as (? & ? & ? & ?).
  unfold _render_zk_properties, tls_props, first_yaml_value, client_tls_props,
    quorum_tls_props, andM, ks_nonempty.
  determined_auto.
Qed.

Lemma render_same_store cfg cl : frame same_store (_render_zk_properties cfg cl).
Proof.
  pose proof same_store_refl. pose proof same_store_trans.
  pose proof (tls_props_same_store cfg).
  unfold _render_zk_properties. by frame_auto.
Qed.

(** Rendering twice in a row, or again from any world with the same stored
    state, gives the same outcome. *)
Lemma render_again cfg cl w w2 :
  ks w2 = ks w →
  (_render_zk_properties cfg cl w2).1 = (_render_zk_properties cfg cl w).1.
Proof. intros Hks. by apply render_determined. Qed.

Lemma render_twice cfg cl w :
  (_render_zk_properties cfg cl (_render_zk_properties cfg cl w).2).1
  = (_render_zk_properties cfg cl w).1.
Proof. apply render_again, render_same_store. Qed.

End RenderDetermined.

(** * Determinism and order of the rendered entries *)

(** C5, counterexample. The same three members, announced in two orders by
    the peer list: the entries come out in the order of the list, and for
    the second list that order is not ascending. *)
Lemma C5_entries_in_peer_list_order :
  let cfg := supplied_config "" "" "" "" in
  let w := constructed cfg in
  (∃ p w', @_render_zk_properties sample cfg three_members w
           = (Ok (Rendered p), w') ∧
           keys (server_entries p) = ["server.1"; "server.2"; "server.3"]) ∧
  (∃ p w', @_render_zk_properties sample cfg three_members_shuffled w
           = (Ok (Rendered p), w') ∧
           keys (server_entries p) = ["server.2"; "server.3"; "server.1"]).
Proof.
  split; eexists _, _; (split; [vm_compute; reflexivity | reflexivity]).
Qed.

Section Order.
Context `{Collaborators}.
Implicit Types (cfg : gmap string value) (w : world) (cl : cluster).

(** A successful rendering, taken apart. *)
Lemma render_Rendered_inv cfg cl w p w' :
  _render_zk_properties cfg cl w = (Ok (Rendered p), w') →
  is_ready cl = true ∧
  ∃ base w1, tls_props cfg w = (Ok base, w1) ∧
             add_servers (get_peers cl) base = Ok p ∧
             emitted_configs (trace w') = p :: emitted_configs (trace w1).
Proof.
  intros Hrun. unfold _render_zk_properties in Hrun. py_inv.
  destruct (is_ready cl); [|done]. split; [done|].
  eexists _, _. split; [done|]. split; [done|]. reflexivity.
Qed.

(** C5, as amended. Configuration synthesis is deterministic: a rendering
    that succeeded gives the same properties when it is repeated right away,
    or from any world with the same stored state. The per-member entries
    are the ones of the peer list, in the order of the peer list (whose ids
    are taken to be distinct); they are ascending by member id when the
    peer list is. *)
Theorem C5_deterministic_in_peer_list_order cfg cl w p w' :
  _render_zk_properties cfg cl w = (Ok (Rendered p), w') →
  is_ready cl = true ∧
  (_render_zk_properties cfg cl w').1 = Ok (Rendered p) ∧
  (∀ w2, ks w2 = ks w →
     (_render_zk_properties cfg cl w2).1 = Ok (Rendered p)) ∧
  ∃ es, peer_entries (get_peers cl) = Some es ∧
        (NoDup es.*1 →
         server_entries p = es ∧
         ∃ base w1, tls_props cfg w = (Ok base, w1) ∧ p = (base ++ es)%list).
Proof.
  intros Hrun.
  pose proof Hrun as (Hready & base & w1 & Hbase & Hadd & _)%render_Rendered_inv.
  split_and!; [done | | |].
  - pose proof (render_twice cfg cl w) as Htwice.
    rewrite Hrun in Htwice. exact Htwice.
  - intros w2 Hks. rewrite (render_again cfg cl w w2 Hks). by rewrite Hrun.
  - destruct (add_servers_peer_entries _ _ _ Hadd) as [es Hes].
    exists es. split; [done|]. intros Hnodup.
    pose proof (tls_props_no_server_entries _ _ _ _ Hbase) as Hnone.
    assert (p = (base ++ es)%list) as ->.
    { eapply add_servers_appends; [done..|].
      intros k Hk. apply (server_entries_none _ _ Hnone).
      pose proof (peer_entries_server_keys _ _ Hes) as Hkeys.
      apply list_elem_of_fmap in Hk as ([k' v] & -> & Hin).
      rewrite <-Hkeys in Hin. unfold server_entries in Hin.
      apply list_elem_of_In, List.filter_In in Hin as [_ Hin]. done. }
    split; [|eauto].
    rewrite server_entries_app, Hnone. cbn.
    by eapply peer_entries_server_keys.
Qed.

End Order.

(** The ensemble of scenario A, rendered twice. *)
Lemma C5_witness :
  let cfg := supplied_config "" "" "" "" in
  let w := constructed cfg in
  let run := @_render_zk_properties sample cfg three_members w in
  (@_render_zk_properties sample cfg three_members run.2).1 = run.1 ∧
  ∃ p, run.1 = Ok (Rendered p) ∧
       server_entries p = [("server.1", VStr "host1:2888:3888");
                           ("server.2", VStr "host2:2888:3888");
                           ("server.3", VStr "host3:2888:3888")].
Proof.
  pose (cfg := supplied_config "" "" "" "").
  pose (w := constructed cfg).
  destruct (@_render_zk_properties sample cfg three_members w)
    as [r w'] eqn:Hrun.
  assert (∃ p, r = Ok (Rendered p)) as [p ->].
  { vm_compute in Hrun. injection Hrun as <- _. eauto. }
  destruct (@C5_deterministic_in_peer_list_order sample cfg three_members
              w p w' Hrun) as (_ & Htwice & _ & es & Hes & Horder).
  cbn zeta. fold cfg. fold w. rewrite Hrun. cbn [fst snd].
  split; [exact Htwice|]. exists p. split; [reflexivity|].
  vm_compute in Hes. injection Hes as <-.
  apply Horder. apply (bool_decide_unpack _). vm_compute. exact I.
Defined.

(** * What a rendered configuration says about TLS *)

Section DictFacts.
Implicit Types (d : props) (k : string) (v : value).

Lemma dict_get_set_ne k k' v d :
  k ≠ k' → dict_get k (dict_set k' v d) = dict_get k d.
Proof.
  intros Hne. induction d as [|[k1 v1] d IH]; cbn.
  - by apply String.eqb_neq in Hne as ->.
  - destruct (String.eqb k' k1) eqn:H1; cbn.
    + apply String.eqb_eq in H1 as <-.
      by apply String.eqb_neq in Hne as ->.
    + destruct (String.eqb k k1); [done | apply IH].
Qed.

(** The loop over the peers only touches per-member entries. *)
Lemma add_servers_other_keys zk_list d d' k :
  add_servers zk_list d = Ok d' → is_server_key k = false →
  dict_get k d' = dict_get k d.
Proof.
  revert d. induction zk_list as [|peer rest IH]; intros d; cbn.
  - by intros [= <-].
  - destruct (peer !! "endpoint") as [e|]; [|done].
    destruct (peer !! "myid") as [i|]; [|done].
    intros Hadd Hk. rewrite (IH _ Hadd Hk). apply dict_get_set_ne.
    intros ->. fold (server_key i) in Hk.
    by rewrite is_server_key_server_key in Hk.
Qed.

End DictFacts.

Section RenderFacts.
Context `{Collaborators}.
Implicit Types (cfg : gmap string value) (w : world) (cl : cluster).

(** The properties handed to the renderer are the ones built before the
    readiness check, plus per-member entries. *)
Lemma render_other_keys cfg cl w p w' :
  _render_zk_properties cfg cl w = (Ok (Rendered p), w') →
  ∃ base w1, tls_props cfg w = (Ok base, w1) ∧
    ∀ k, is_server_key k = false → dict_get k p = dict_get k base.
Proof.
  intros (_ & base & w1 & Hbase & Hadd & _)%render_Rendered_inv.
  exists base, w1. split; [done|]. intros k Hk.
  by eapply add_servers_other_keys.
Qed.

Lemma render_client cfg cl w p w' sc sk :
  _render_zk_properties cfg cl w = (Ok (Rendered p), w') →
  ks w !! "ssl_cert" = Some sc → ks w !! "ssl_key" = Some sk →
  complete sc sk = true →
  dict_get "secureClientPort" p
    = Some (config_get cfg "clientPort" (VInt 2182)) ∧
  dict_get "clientPort" p = None ∧
  dict_get "ssl.clientAuth" p = Some (VStr "need") ∧
  dict_get "ssl.keyStore.location" p
    = Some (config_get cfg "keystore-path"
              (VStr "/var/ssl/private/zookeeper.keystore.jks")) ∧
  dict_get "ssl.trustStore.location" p
    = Some (config_get cfg "truststore-path"
              (VStr "/var/ssl/private/zookeeper.truststore.jks")) ∧
  dict_get "ssl.keyStore.password" p = VStr <$> ks w !! "ks_password" ∧
  dict_get "ssl.trustStore.password" p = VStr <$> ks w !! "ts_password".
Proof.
  intros (base & w1 & Hbase & Hkeys)%render_other_keys Hsc Hsk Hcomplete.
  rewrite !Hkeys by done. by eapply tls_props_client.
Qed.

Lemma render_plaintext cfg cl w p w' sc sk :
  _render_zk_properties cfg cl w = (Ok (Rendered p), w') →
  ks w !! "ssl_cert" = Some sc → ks w !! "ssl_key" = Some sk →
  complete sc sk = false →
  dict_get "clientPort" p = Some (config_get cfg "clientPort" (VInt 2182)) ∧
  dict_get "secureClientPort" p = None ∧
  dict_get "ssl.clientAuth" p = Some (VStr "none") ∧
  dict_get "ssl.keyStore.location" p = None.
Proof.
  intros (base & w1 & Hbase & Hkeys)%render_other_keys Hsc Hsk Hcomplete.
  rewrite !Hkeys by done. by eapply tls_props_plaintext.
Qed.

Lemma render_quorum cfg cl w p w' :
  _render_zk_properties cfg cl w = (Ok (Rendered p), w') →
  if truthy (config_get cfg "ssl_quorum" (VBool false))
  then
    dict_get "sslQuorum" p = Some (VStr "true") ∧
    dict_get "ssl.quorum.keyStore.location" p
      = Some (get_quorum_keystore cfg) ∧
    dict_get "ssl.quorum.trustStore.location" p
      = Some (get_quorum_truststore cfg) ∧
    dict_get "ssl.quorum.keyStore.password" p
      = VStr <$> ks w !! "ks_zookeeper_pwd" ∧
    dict_get "ssl.quorum.trustStore.password" p
      = VStr <$> ks w !! "ts_zookeeper_pwd"
  else
    dict_get "sslQuorum" p ≠ Some (VStr "true") ∧
    dict_get "ssl.quorum.keyStore.location" p = None.
Proof.
  intros (base & w1 & Hbase & Hkeys)%render_other_keys.
  rewrite !Hkeys by done. by eapply tls_props_quorum.
Qed.

End RenderFacts.

(** * The config-changed hook in closed form *)

Section Hook.
Context `{Collaborators}.
Implicit Types (cfg : gmap string value) (w : world) (cl : cluster).

Lemma same_service_refl w : same_service w w.
Proof. done. Qed.

Lemma same_service_trans w1 w2 w3 :
  same_service w1 w2 → same_service w2 w3 → same_service w1 w3.
Proof. unfold same_service. intros [-> ->] [-> ->]. done. Qed.

Lemma generate_keystores_same_service cfg :
  frame same_service (_generate_keystores cfg).
Proof.
  pose proof same_service_refl. pose proof same_service_trans.
  destruct (frame_getters same_service cfg) as (? & ? & ? & ?); [done..|].
  unfold _generate_keystores, already_generated, generate_root_cas,
    certificates_remain_the_same, store_supplied_material,
    quorum_keystore_block, client_keystore_block, build_keystore,
    self_signed, gen_password, ks_same.
  frame_auto; by split.
Qed.

Lemma render_same_service cfg cl :
  frame same_service (_render_zk_properties cfg cl).
Proof.
  pose proof same_service_refl. pose proof same_service_trans.
  destruct (frame_getters same_service cfg) as (? & ? & ? & ?); [done..|].
  unfold _render_zk_properties, tls_props, first_yaml_value, client_tls_props,
    quorum_tls_props.
  frame_auto; by split.
Qed.

Lemma generate_keystores_same_emitted cfg :
  frame same_emitted (_generate_keystores cfg).
Proof.
  pose proof same_emitted_refl. pose proof same_emitted_trans.
  destruct (frame_getters same_emitted cfg) as (? & ? & ? & ?); [done..|].
  unfold _generate_keystores, already_generated, generate_root_cas,
    certificates_remain_the_same, store_supplied_material,
    quorum_keystore_block, client_keystore_block, build_keystore,
    self_signed, gen_password, ks_same.
  by frame_auto.
Qed.

(** Lines 317-320. *)
Lemma set_service_run w :
  (if String.eqb distro "confluent" then set_service "confluent-zookeeper"
   else if String.eqb distro "apache" then set_service "zookeeper"
   else ret tt) w
  = (Ok tt, World (ks w) (service_name w) (seed w) (trace w)).
Proof.
  unfold service_name.
  destruct (String.eqb distro "confluent"); [done|].
  destruct (String.eqb distro "apache"); [done|]. by destruct w.
Qed.

(** The hook in closed form: it ends where generation or rendering raised,
    or at the first read of [self.service] when no name was given to the
    service, or after the restart. *)
Lemma on_config_changed_run cfg cl w :
  _on_config_changed cfg cl w =
    match _generate_keystores cfg
            (World (ks w) (service_name w) (seed w) (trace w)) with
    | (Raise e, w1) => (Raise e, w1)
    | (Ok _, w1) =>
        match _render_zk_properties cfg cl w1 with
        | (Raise e, w2) => (Raise e, w2)
        | (Ok _, w2) =>
            match service w2 with
            | None =>
                (Raise (AttributeError "service"),
                 World (ks w2) (service w2) (seed w2)
                   (rendering_tail cfg ++ trace w2)%list)
            | Some svc => (Ok tt, restarted cfg svc w2)
            end
        end
    end.
Proof.
  unfold _on_config_changed. unfold bind at 1. rewrite set_service_run.
  unfold bind at 1.
  destruct (_generate_keystores cfg _) as [[[]|e] w1]; [|done].
  unfold bind at 1.
  destruct (_render_zk_properties cfg cl w1) as [[o|e] w2]; [|done].
  unfold _render_zk_log4j_properties, _check_if_ready, restarted,
    rendering_tail, root_logger.
  cbv [bind call get_service ret]. cbn [ks service seed trace app].
  destruct (service w2) as [svc|]; [|done].
  repeat (cbn [ks service seed trace]; cbv beta iota).
  destruct (is_ready cl); cbn [negb]; [|done].
  repeat (cbn [ks service seed trace]; cbv beta iota).
  destruct (service_running svc); cbn [negb];
    by repeat (cbn [ks service seed trace]; cbv beta iota).
Qed.

(** What a rendering adds to the emitted configurations. *)
Lemma render_emitted cfg cl w :
  emitted_configs (trace (_render_zk_properties cfg cl w).2)
  = match (_render_zk_properties cfg cl w).1 with
    | Ok (Rendered p) => p :: emitted_configs (trace w)
    | _ => emitted_configs (trace w)
    end.
Proof.
  pose proof (tls_props_same_emitted cfg w) as Hsame.
  unfold _render_zk_properties, bind.
  destruct (tls_props cfg w) as [[base|e] w1]; cbn [fst snd] in *; [|done].
  destruct (is_ready cl); cbn [negb]; [|done].
  unfold lift. destruct (add_servers (get_peers cl) base) as [p|e];
    cbn [fst snd]; [|done].
  unfold same_emitted in Hsame. cbn. by rewrite Hsame.
Qed.

(** A hook that emits a configuration, however it ends afterwards, has
    run [_generate_keystores] to its end first and has rendered from the
    world generation left. *)
Lemma on_config_changed_emitted cfg cl w :
  emitted_configs (trace (_on_config_changed cfg cl w).2)
  = emitted_configs (trace w) ∨
  ∃ w1 w2 p,
    _generate_keystores cfg
      (World (ks w) (service_name w) (seed w) (trace w)) = (Ok tt, w1) ∧
    _render_zk_properties cfg cl w1 = (Ok (Rendered p), w2) ∧
    emitted_configs (trace (_on_config_changed cfg cl w).2)
    = p :: emitted_configs (trace w).
Proof.
  rewrite on_config_changed_run.
  pose proof (generate_keystores_same_emitted cfg
                (World (ks w) (service_name w) (seed w) (trace w))) as He1.
  unfold same_emitted in He1. cbn [trace] in He1.
  destruct (_generate_keystores cfg _) as [[[]|e] w1]; cbn [fst snd] in *;
    [|by left].
  pose proof (render_emitted cfg cl w1) as He2.
  destruct (_render_zk_properties cfg cl w1) as [[o|e] w2] eqn:Hrender;
    cbn [fst snd] in *; [|left; congruence].
  assert (emitted_configs
            (trace (match service w2 with
                    | Some svc => (Ok tt, restarted cfg svc w2)
                    | None =>
                        (Raise (AttributeError "service"),
                         World (ks w2) (service w2) (seed w2)
                           (rendering_tail cfg ++ trace w2)%list)
                    end).2)
          = emitted_configs (trace w2)) as ->.
  { by destruct (service w2). }
  destruct o as [msg|p]; [left; congruence|].
  right. exists w1, w2, p. split_and!; [done | done | congruence].
Qed.

End Hook.

(** * Half-populated material *)


Section Incomplete.
Context `{Collaborators}.
Implicit Types (cfg : gmap string value) (w : world) (m : material).



End Incomplete.


(** * Keystores and the configuration that refers to them *)

(** C6, counterexample. Quorum TLS is switched on and no quorum material
    is supplied. The hook runs [_generate_keystores], which writes no
    keystore, and then emits a configuration with [sslQuorum=true] whose
    keystore location is a path at which nothing was ever written. *)
Lemma C6_quorum_tls_without_keystore :
  let cfg := with_ssl_quorum (supplied_config "" "" "" "") in
  let run := (@__init__ sample cfg;; @_on_config_changed sample cfg three_members)
               fresh in
  run.1 = Ok tt ∧
  keystore_writes (trace run.2) = [] ∧
  ∃ p, emitted_configs (trace run.2) = [p] ∧
       dict_get "sslQuorum" p = Some (VStr "true") ∧
       dict_get "ssl.quorum.keyStore.location" p
         = Some (VStr "/var/ssl/private/kafka_quorum_ks.jks") ∧
       dict_get "ssl.quorum.keyStore.password" p = Some (VStr "") ∧
       keystores_at (VStr "/var/ssl/private/kafka_quorum_ks.jks")
         (trace run.2) = [].
Proof.
  vm_compute. split_and!; [reflexivity..|].
  eexists. split_and!; reflexivity.
Qed.

Section Freshness.
Context `{Collaborators}.
Implicit Types (cfg : gmap string value) (w : world) (m : material).

(** The client keystore is the last one [rebuild] writes. *)
Lemma rebuild_client_keystore cfg user group m w :
  complete (m_ssl_cert m) (m_ssl_key m) = true →
  ∃ n, (seed w ≤ n)%nat ∧
    ks (rebuild cfg user group m w) !! "ks_password"
      = Some (genRandomPassword None n) ∧
    head (keystores_at (get_ssl_keystore cfg)
            (trace (rebuild cfg user group m w)))
      = Some (genRandomPassword None n, m_ssl_cert m, m_ssl_key m).
Proof.
  intros Hc. unfold rebuild. rewrite Hc.
  destruct (complete (m_quorum_cert m) (m_quorum_key m)).
  - exists (S (S (seed w))). split; [cbn; lia|].
    unfold write_keystore. cbn [ks trace seed keystores_at].
    rewrite lookup_insert_eq. by rewrite decide_True.
  - exists (seed w). split; [done|].
    unfold write_keystore. cbn [ks trace seed keystores_at].
    rewrite lookup_insert_eq. by rewrite decide_True.
Qed.

(** The quorum keystore is written first; it is the last one at its path
    unless the client keystore goes to the same path. *)
Lemma rebuild_quorum_keystore cfg user group m w :
  complete (m_quorum_cert m) (m_quorum_key m) = true →
  complete (m_ssl_cert m) (m_ssl_key m) = false ∨
    get_ssl_keystore cfg ≠ get_quorum_keystore cfg →
  ks (rebuild cfg user group m w) !! "ks_zookeeper_pwd"
    = Some (genRandomPassword None (seed w)) ∧
  head (keystores_at (get_quorum_keystore cfg)
          (trace (rebuild cfg user group m w)))
    = Some (genRandomPassword None (seed w),
            m_quorum_cert m, m_quorum_key m).
Proof.
  intros Hq Hpath. unfold rebuild. rewrite Hq.
  destruct (complete (m_ssl_cert m) (m_ssl_key m)).
  - destruct Hpath as [|Hpath]; [done|].
    unfold write_keystore. cbn [ks trace seed keystores_at].
    rewrite lookup_insert_ne by discriminate. rewrite lookup_insert_eq.
    rewrite decide_False by done. by rewrite decide_True.
  - unfold write_keystore. cbn [ks trace seed keystores_at].
    rewrite lookup_insert_eq. by rewrite decide_True.
Qed.

Lemma set_service_inv svc w r w' :
  set_service svc w = (r, w') →
  r = Ok tt ∧ w' = World (ks w) (Some svc) (seed w) (trace w).
Proof. by intros [= <- <-]. Qed.

(** Inside the hook, generation has returned before rendering starts, and
    rendering starts from the world generation left. *)
Lemma on_config_changed_inv cfg cl w w' :
  _on_config_changed cfg cl w = (Ok tt, w') →
  ∃ w0 w1 w2 o,
    ks w0 = ks w ∧ seed w0 = seed w ∧ trace w0 = trace w ∧
    _generate_keystores cfg w0 = (Ok tt, w1) ∧
    _render_zk_properties cfg cl w1 = (Ok o, w2).
Proof.
  intros Hrun. unfold _on_config_changed in Hrun.
  apply bind_Ok_inv in Hrun as ([] & w0 & Hsvc & Hrun).
  apply bind_Ok_inv in Hrun as ([] & w1 & Hgen & Hrun).
  apply bind_Ok_inv in Hrun as (o & w2 & Hrender & _).
  exists w0, w1, w2, o.
  assert (ks w0 = ks w ∧ seed w0 = seed w ∧ trace w0 = trace w)
    as (? & ? & ?); [|done].
  destruct (String.eqb distro "confluent");
    [apply set_service_inv in Hsvc as [_ ->]; done|].
  destruct (String.eqb distro "apache");
    [apply set_service_inv in Hsvc as [_ ->]; done|].
  by apply ret_inv in Hsvc as [_ ->].
Qed.

(** The quorum keystore is written with the password stored in
    [ks_zookeeper_pwd], whatever is written afterwards. *)
Lemma rebuild_quorum_written cfg user group m w :
  complete (m_quorum_cert m) (m_quorum_key m) = true →
  ks (rebuild cfg user group m w) !! "ks_zookeeper_pwd"
    = Some (genRandomPassword None (seed w)) ∧
  (genRandomPassword None (seed w), m_quorum_cert m, m_quorum_key m)
    ∈ keystores_at (get_quorum_keystore cfg)
        (trace (rebuild cfg user group m w)).
Proof.
  intros Hq. unfold rebuild. rewrite Hq.
  destruct (complete (m_ssl_cert m) (m_ssl_key m)).
  - unfold write_keystore. cbn [ks trace seed keystores_at].
    rewrite lookup_insert_ne by discriminate. rewrite lookup_insert_eq.
    split; [done|].
    rewrite (decide_True (P := get_quorum_keystore cfg = _)) by done.
    destruct (decide (get_ssl_keystore cfg = get_quorum_keystore cfg));
      [apply elem_of_cons; right|]; apply elem_of_cons; by left.
  - unfold write_keystore. cbn [ks trace seed keystores_at].
    rewrite lookup_insert_eq. rewrite decide_True by done.
    split; [done|]. apply elem_of_cons. by left.
Qed.

(** When both keystores go to one path, the file left there is the client
    keystore. *)
Lemma rebuild_shared_path cfg user group m w :
  complete (m_ssl_cert m) (m_ssl_key m) = true →
  get_ssl_keystore cfg = get_quorum_keystore cfg →
  ∃ pwd,
    ks (rebuild cfg user group m w) !! "ks_password" = Some pwd ∧
    head (keystores_at (get_quorum_keystore cfg)
            (trace (rebuild cfg user group m w)))
    = Some (pwd, m_ssl_cert m, m_ssl_key m).
Proof.
  intros Hc Hpath.
  destruct (rebuild_client_keystore cfg user group m w Hc)
    as (n & _ & Hpwd & Hhead).
  exists (genRandomPassword None n). by rewrite <-Hpath.
Qed.

(** C6, as amended. Inside [_on_config_changed], a configuration is emitted
    only after [_generate_keystores] has run to its end: in every
    invocation that emits one, also one that fails afterwards,
    [_render_zk_properties] started from the world generation had left, and
    it reads the stored passwords as it finds them there. Whether TLS is
    declared does not depend on a keystore being there: quorum TLS is
    declared exactly when the option [ssl_quorum] is set, client TLS exactly
    when the stored client certificate and key are both non-empty. Where the
    generation of the same run has rebuilt the keystores from the stored
    material:
    - the emitted client password is the one of the client keystore, the
      last keystore written at the client keystore path; the emitted client
      path is that path when [keystore-path] is configured;
    - the emitted quorum password and path are the ones the quorum keystore
      was written with; that keystore is the last one written at its path
      when no client keystore was built or the two paths differ; when a
      client keystore was built at the same path, the keystore left at the
      emitted quorum path is the client one, written with the emitted
      client password. *)
Theorem C6_rendering_reads_what_generation_left cfg cl :
  (∀ w,
     emitted_configs (trace (_on_config_changed cfg cl w).2)
     = emitted_configs (trace w) ∨
     ∃ w0 w1 w2 p,
       ks w0 = ks w ∧ seed w0 = seed w ∧ trace w0 = trace w ∧
       _generate_keystores cfg w0 = (Ok tt, w1) ∧
       _render_zk_properties cfg cl w1 = (Ok (Rendered p), w2) ∧
       emitted_configs (trace (_on_config_changed cfg cl w).2)
       = p :: emitted_configs (trace w)) ∧
  ∀ w1 w2 p,
    _render_zk_properties cfg cl w1 = (Ok (Rendered p), w2) →
    (if truthy (config_get cfg "ssl_quorum" (VBool false))
     then dict_get "sslQuorum" p = Some (VStr "true") ∧
          dict_get "ssl.quorum.keyStore.location" p
            = Some (get_quorum_keystore cfg) ∧
          dict_get "ssl.quorum.keyStore.password" p
            = VStr <$> ks w1 !! "ks_zookeeper_pwd"
     else dict_get "sslQuorum" p ≠ Some (VStr "true")) ∧
    (∀ sc sk,
       ks w1 !! "ssl_cert" = Some sc → ks w1 !! "ssl_key" = Some sk →
       if complete sc sk
       then is_Some (dict_get "secureClientPort" p) ∧
            dict_get "ssl.keyStore.password" p
              = VStr <$> ks w1 !! "ks_password"
       else dict_get "secureClientPort" p = None) ∧
    (∀ user group m wm,
       stored_material wm = Some m →
       w1 = rebuild cfg user group m wm →
       (complete (m_ssl_cert m) (m_ssl_key m) = true →
        ∃ pwd,
          head (keystores_at (get_ssl_keystore cfg) (trace w1))
            = Some (pwd, m_ssl_cert m, m_ssl_key m) ∧
          dict_get "ssl.keyStore.password" p = Some (VStr pwd) ∧
          (is_Some (cfg !! "keystore-path") →
           dict_get "ssl.keyStore.location" p
             = Some (get_ssl_keystore cfg))) ∧
       (complete (m_quorum_cert m) (m_quorum_key m) = true →
        truthy (config_get cfg "ssl_quorum" (VBool false)) = true →
        ∃ pwd,
          (pwd, m_quorum_cert m, m_quorum_key m)
            ∈ keystores_at (get_quorum_keystore cfg) (trace w1) ∧
          dict_get "ssl.quorum.keyStore.password" p = Some (VStr pwd) ∧
          dict_get "ssl.quorum.keyStore.location" p
            = Some (get_quorum_keystore cfg) ∧
          (complete (m_ssl_cert m) (m_ssl_key m) = false ∨
             get_ssl_keystore cfg ≠ get_quorum_keystore cfg →
           head (keystores_at (get_quorum_keystore cfg) (trace w1))
             = Some (pwd, m_quorum_cert m, m_quorum_key m)) ∧
          (complete (m_ssl_cert m) (m_ssl_key m) = true →
           get_ssl_keystore cfg = get_quorum_keystore cfg →
           ∃ client_pwd,
             head (keystores_at (get_quorum_keystore cfg) (trace w1))
               = Some (client_pwd, m_ssl_cert m, m_ssl_key m) ∧
             dict_get "ssl.keyStore.password" p
               = Some (VStr client_pwd)))).
Proof.
  split.
  { intros w.
    destruct (on_config_changed_emitted cfg cl w)
      as [Hsame|(w1 & w2 & p & Hgen & Hrender & Hemitted)]; [by left|].
    right. by exists (World (ks w) (service_name w) (seed w) (trace w)),
             w1, w2, p. }
  intros w1 w2 p Hrender.
  pose proof (render_quorum _ _ _ _ _ Hrender) as Hquorum.
  split_and!.
  - destruct (truthy (config_get cfg "ssl_quorum" (VBool false)));
      [destruct Hquorum as (? & ? & _ & ? & _) | destruct Hquorum]; done.
  - intros sc sk Hsc Hsk. destruct (complete sc sk) eqn:Hc.
    + destruct (render_client _ _ _ _ _ _ _ Hrender Hsc Hsk Hc)
        as (-> & _ & _ & _ & _ & -> & _).
      eauto.
    + by destruct (render_plaintext _ _ _ _ _ _ _ Hrender Hsc Hsk Hc)
        as (_ & -> & _).
  - intros user group m wm Hwm ->.
    assert (stored_material (rebuild cfg user group m wm) = Some m)
      as (_ & _ & Hsc & Hsk)%stored_material_inv.
    { by rewrite stored_rebuild. }
    split.
    + intros Hc.
      destruct (rebuild_client_keystore cfg user group m wm Hc)
        as (n & _ & Hpwd & Hhead).
      destruct (render_client _ _ _ _ _ _ _ Hrender Hsc Hsk Hc)
        as (_ & _ & _ & Hloc & _ & Hp & _).
      exists (genRandomPassword None n). split; [done|].
      rewrite Hp, Hpwd. split; [done|].
      intros [path Hpath]. rewrite Hloc.
      unfold get_ssl_keystore, config_get. by rewrite Hpath.
    + intros Hq Hon. rewrite Hon in Hquorum.
      destruct Hquorum as (_ & Hloc & _ & Hp & _).
      destruct (rebuild_quorum_written cfg user group m wm Hq)
        as (Hpwd & Hin).
      exists (genRandomPassword None (seed wm)).
      split_and!; [done | by rewrite Hp, Hpwd | done | |].
      * intros Hpath.
        by destruct (rebuild_quorum_keystore cfg user group m wm Hq Hpath).
      * intros Hc Hpath.
        destruct (rebuild_shared_path cfg user group m wm Hc Hpath)
          as (client_pwd & Hcpwd & Hhead).
        destruct (render_client _ _ _ _ _ _ _ Hrender Hsc Hsk Hc)
          as (_ & _ & _ & _ & _ & Hcp & _).
        exists client_pwd. split; [done|]. by rewrite Hcp, Hcpwd.
Qed.

End Freshness.

(** Quorum TLS with supplied quorum material on a unit that has stored
    nothing yet: generation rebuilds the quorum keystore, and the emitted
    configuration carries the password that keystore was written with. *)
Lemma C6_witness :
  let cfg := with_ssl_quorum (supplied_config "QQ==" "Qg==" "" "") in
  let w1 := (@_generate_keystores sample cfg with_defaults).2 in
  let run := @_render_zk_properties sample cfg three_members w1 in
  ∃ p pwd,
    run.1 = Ok (Rendered p) ∧
    head (keystores_at (get_quorum_keystore cfg) (trace w1))
      = Some (pwd, "A", "B") ∧
    dict_get "ssl.quorum.keyStore.password" p = Some (VStr pwd).
Proof.
  pose (cfg := with_ssl_quorum (supplied_config "QQ==" "Qg==" "" "")).
  pose (w1 := (@_generate_keystores sample cfg with_defaults).2).
  destruct (@_render_zk_properties sample cfg three_members w1)
    as [r w2] eqn:Hrun.
  assert (∃ p, r = Ok (Rendered p)) as [p ->].
  { vm_compute in Hrun. injection Hrun as <- _. eauto. }
  destruct (@C6_rendering_reads_what_generation_left sample cfg three_members)
    as [_ Hfacts].
  destruct (Hfacts w1 w2 p Hrun) as (_ & _ & Hrebuilt).
  destruct (Hrebuilt (VStr "cp-kafka") (VStr "confluent")
              (Material "A" "B" "" "")
              (store_material (Material "A" "B" "" "") with_defaults))
    as [_ Hquorum]; [vm_compute; reflexivity..|].
  destruct Hquorum as (pwd & _ & Hpwd & _ & Hlast & _);
    [reflexivity | reflexivity |].
  pose proof (Hlast (or_introl eq_refl)) as Hhead.
  cbn zeta. fold cfg. fold w1. rewrite Hrun. cbn [fst].
  exists p, pwd. split; [reflexivity|]. split; [exact Hhead | exact Hpwd].
Defined.
(** * Client TLS, end to end *)

Section ClientTls.
Context `{Collaborators}.
Implicit Types (cfg : gmap string value) (w : world) (cl : cluster).

Lemma same_keystores_at_refl path w : same_keystores_at path w w.
Proof. done. Qed.

Lemma same_keystores_at_trans path w1 w2 w3 :
  same_keystores_at path w1 w2 → same_keystores_at path w2 w3 →
  same_keystores_at path w1 w3.
Proof. unfold same_keystores_at. congruence. Qed.

(** Rendering writes no keystore. *)
Lemma render_same_keystores_at path cfg cl :
  frame (same_keystores_at path) (_render_zk_properties cfg cl).
Proof.
  pose proof (same_keystores_at_refl path).
  pose proof (same_keystores_at_trans path).
  destruct (frame_getters (same_keystores_at path) cfg) as (? & ? & ? & ?);
    [done..|].
  unfold _render_zk_properties, tls_props, first_yaml_value, client_tls_props,
    quorum_tls_props.
  by frame_auto.
Qed.

(** The keystores [rebuild] writes go to the two keystore paths. *)
Lemma rebuild_other_path path cfg user group m w :
  path ≠ get_quorum_keystore cfg → path ≠ get_ssl_keystore cfg →
  keystores_at path (trace (rebuild cfg user group m w))
  = keystores_at path (trace w).
Proof.
  intros Hq Hc. unfold rebuild, write_keystore.
  destruct (complete (m_quorum_cert m) (m_quorum_key m)),
    (complete (m_ssl_cert m) (m_ssl_key m));
    cbn [trace keystores_at]; by rewrite ?decide_False by done.
Qed.

(** The loop over the peers completes when every peer has an id and an
    endpoint. *)
Lemma add_servers_total zk_list es d :
  peer_entries zk_list = Some es → ∃ d', add_servers zk_list d = Ok d'.
Proof.
  revert es d. induction zk_list as [|peer rest IH]; intros es d; cbn.
  - eauto.
  - destruct (peer !! "myid") as [i|]; [|done].
    destruct (peer !! "endpoint") as [e|]; [|done].
    destruct (peer_entries rest) as [es'|]; [|done]. intros _.
    by eapply IH.
Qed.

(** C7. Scenario B: the charm generates its root CAs on a unit that holds
    no material yet ([keystore-path] is not configured, the generators
    honour their contracts). [_generate_keystores] returns and leaves
    complete client material, a non-empty [ks_password], and the client
    keystore written with that password at
    ["/var/ssl/private/kafka_ssl_ks.jks"], the default of
    [get_ssl_keystore].
    - On a unit whose stored state holds no [ts_password], the rendering
      that follows ends in an exception: no configuration is synthesized.
    - A rendering that returns carries the secure client port,
      [ssl.clientAuth=need] and the password of the keystore just written,
      and it is stable: a further [_generate_keystores] changes nothing and
      a further rendering gives the same properties. But its
      [ssl.keyStore.location] is ["/var/ssl/private/zookeeper.keystore.jks"],
      the default of line 247: the run has written no keystore there (the
      quorum keystore path being another one), while the keystore with the
      emitted password lies at the other default.
    Without complete client material in the stored state, and with
    well-formed options, quorum TLS off and a ready ensemble whose peers all
    have an id and an endpoint, the rendering returns a configuration with
    the plaintext [clientPort] and [ssl.clientAuth=none]. *)
Theorem C7_emitted_client_keystore_path_is_never_written cfg cl :
  (∀ g user group w0 m0,
     cfg !! "generate-root-ca" = Some g → truthy g = true →
     cfg !! "user" = Some user → cfg !! "group" = Some group →
     cfg !! "keystore-path" = None →
     generator_populates user group →
     (∀ n, nonempty (genRandomPassword None n) = true) →
     stored_material w0 = Some m0 → all_populated m0 = false →
     ∃ w1 pwd cert key,
       _generate_keystores cfg w0 = (Ok tt, w1) ∧
       ks w1 !! "ssl_cert" = Some cert ∧ ks w1 !! "ssl_key" = Some key ∧
       complete cert key = true ∧
       ks w1 !! "ks_password" = Some pwd ∧ nonempty pwd = true ∧
       get_ssl_keystore cfg = VStr "/var/ssl/private/kafka_ssl_ks.jks" ∧
       head (keystores_at (VStr "/var/ssl/private/kafka_ssl_ks.jks")
               (trace w1))
       = Some (pwd, cert, key) ∧
       (ks w0 !! "ts_password" = None →
        raised (_render_zk_properties cfg cl w1)) ∧
       ∀ p w2,
         _render_zk_properties cfg cl w1 = (Ok (Rendered p), w2) →
         dict_get "secureClientPort" p
           = Some (config_get cfg "clientPort" (VInt 2182)) ∧
         dict_get "clientPort" p = None ∧
         dict_get "ssl.clientAuth" p = Some (VStr "need") ∧
         dict_get "ssl.keyStore.password" p = Some (VStr pwd) ∧
         _generate_keystores cfg w2 = (Ok tt, w2) ∧
         (_render_zk_properties cfg cl w2).1 = Ok (Rendered p) ∧
         dict_get "ssl.keyStore.location" p
           = Some (VStr "/var/ssl/private/zookeeper.keystore.jks") ∧
         (get_quorum_keystore cfg
            ≠ VStr "/var/ssl/private/zookeeper.keystore.jks" →
          keystores_at (VStr "/var/ssl/private/zookeeper.keystore.jks")
            (trace w2)
          = keystores_at (VStr "/var/ssl/private/zookeeper.keystore.jks")
              (trace w0))) ∧
  (∀ w sc sk dd dl es,
     ks w !! "ssl_cert" = Some sc → ks w !! "ssl_key" = Some sk →
     complete sc sk = false →
     first_yaml_value cfg "data-dir" w = (Ok dd, w) →
     first_yaml_value cfg "data-log-dir" w = (Ok dl, w) →
     truthy (config_get cfg "zookeeper-properties" (VStr "")) = false →
     truthy (config_get cfg "ssl_quorum" (VBool false)) = false →
     is_ready cl = true →
     peer_entries (get_peers cl) = Some es →
     ∃ p w2,
       _render_zk_properties cfg cl w = (Ok (Rendered p), w2) ∧
       dict_get "clientPort" p
         = Some (config_get cfg "clientPort" (VInt 2182)) ∧
       dict_get "secureClientPort" p = None ∧
       dict_get "ssl.clientAuth" p = Some (VStr "none")).
Proof.
  split.
  - intros g user group w0 m0 Hg Hmode Hu Hgr Hpath Hgen Hpwd Hst Hpop.
    rewrite (generate_keystores_ca _ g _ m0 user group) by done.
    rewrite Hpop.
    set (gm := generated_material cfg user group w0).
    set (w1 := rebuild cfg user group gm (after_generation cfg user group w0)).
    assert (Hstored : stored_material w1 = Some gm).
    { unfold w1. rewrite stored_rebuild. apply stored_store_material. }
    pose proof Hstored as (_ & _ & Hsc & Hsk)%stored_material_inv.
    assert (Hgm : all_populated gm = true) by by apply generated_all_populated.
    assert (Hc : complete (m_ssl_cert gm) (m_ssl_key gm) = true).
    { unfold all_populated in Hgm. by apply andb_true_iff in Hgm as [_ ?]. }
    destruct (rebuild_client_keystore cfg user group gm
                (after_generation cfg user group w0) Hc)
      as (n & _ & Hks & Hhead).
    fold w1 in Hks, Hhead.
    assert (Hdefault : get_ssl_keystore cfg
                       = VStr "/var/ssl/private/kafka_ssl_ks.jks").
    { unfold get_ssl_keystore, config_get. by rewrite Hpath. }
    exists w1, (genRandomPassword None n), (m_ssl_cert gm), (m_ssl_key gm).
    split_and!; [done.. | by rewrite <-Hdefault | |].
    + intros Hts.
      assert (ks w1 !! "ts_password" = None) as Hts1.
      { pose proof (generate_keystores_same_field "ts_password" cfg) as Hf.
        specialize (Hf ltac:(not_a_field) w0).
        rewrite (generate_keystores_ca _ g _ m0 user group) in Hf by done.
        rewrite Hpop in Hf. unfold same_field in Hf. cbn [snd] in Hf.
        fold gm in Hf. fold w1 in Hf. by rewrite Hf. }
      pose proof (tls_props_raises cfg w1 _ _ Hts1 Hsc Hsk Hc) as Hr.
      unfold _render_zk_properties, bind.
      by destruct (tls_props cfg w1) as [[?|?] ?].
    + intros p w2 Hrender.
      destruct (render_client _ _ _ _ _ _ _ Hrender Hsc Hsk Hc)
        as (Hport & Hplain & Hauth & Hloc & _ & Hp & _).
      pose proof (render_same_store cfg cl w1) as [Hks2 _].
      rewrite Hrender in Hks2. cbn [snd] in Hks2.
      split_and!; [done | done | done | by rewrite Hp, Hks | | | |].
      * rewrite (generate_keystores_ca _ g _ gm user group);
          [|done..| |done|done].
        -- by rewrite Hgm.
        -- unfold stored_material. rewrite Hks2. exact Hstored.
      * rewrite (render_again cfg cl w1 w2 Hks2). by rewrite Hrender.
      * rewrite Hloc. unfold config_get. by rewrite Hpath.
      * intros Hq.
        pose proof (render_same_keystores_at
                      (VStr "/var/ssl/private/zookeeper.keystore.jks")
                      cfg cl w1) as Hsame.
        rewrite Hrender in Hsame. unfold same_keystores_at in Hsame.
        cbn [snd] in Hsame. rewrite Hsame. unfold w1.
        rewrite rebuild_other_path; [done | done |].
        by rewrite Hdefault.
  - intros w sc sk dd dl es Hsc Hsk Hc Hdd Hdl Hzk Hq Hready Hes.
    destruct (add_servers_total (get_peers cl) es
                (dict_set "clientPort"
                   (config_get cfg "clientPort" (VInt 2182))
                   (dict_set "ssl.clientAuth" (VStr "none")
                      (dict_set "dataLogDir" dl (dict_set "dataDir" dd [])))))
      as [p Hadd]; [done|].
    exists p. eexists.
    assert (_render_zk_properties cfg cl w
            = (Ok (Rendered p),
               World (ks w) (service w) (seed w)
                 (CallRender "zookeeper.properties.j2" zookeeper_properties
                    (cfg !! "user") (cfg !! "group") (CtxZkProps p)
                  :: trace w))) as Hrender.
    { unfold _render_zk_properties, tls_props. cbv zeta.
      rewrite Hzk, Hq, Hready. cbv [bind]. rewrite Hdd. cbv [ret].
      rewrite Hdl. rewrite (both_nonempty_run _ _ _ _ _ Hsc Hsk), Hc.
      cbn [negb]. cbv [lift]. rewrite Hadd. reflexivity. }
    split; [exact Hrender|].
    destruct (render_plaintext _ _ _ _ _ _ _ Hrender Hsc Hsk Hc)
      as (? & ? & ? & _).
    done.
Qed.

End ClientTls.

Lemma sample_passwords_nonempty len n :
  nonempty (@genRandomPassword sample len n) = true.
Proof. reflexivity. Qed.

(** Scenario B on the sample deployment, three ready members. On the unit
    as the constructor's defaults leave it, the rendering raises. On a unit
    whose stored state also holds a truststore password, it returns: the
    emitted keystore location is a path at which nothing was written, and
    the keystore lies at the other default path. *)
Lemma C7_witness :
  raised (@_render_zk_properties sample root_ca_config three_members
            (@_generate_keystores sample root_ca_config with_defaults).2) ∧
  ∃ w1 p w2,
    @_generate_keystores sample root_ca_config with_truststore_password
    = (Ok tt, w1) ∧
    @_render_zk_properties sample root_ca_config three_members w1
    = (Ok (Rendered p), w2) ∧
    dict_get "ssl.keyStore.location" p
    = Some (VStr "/var/ssl/private/zookeeper.keystore.jks") ∧
    keystores_at (VStr "/var/ssl/private/zookeeper.keystore.jks") (trace w2)
    = [] ∧
    ∃ pwd cert key,
      head (keystores_at (VStr "/var/ssl/private/kafka_ssl_ks.jks")
              (trace w1)) = Some (pwd, cert, key) ∧
      dict_get "ssl.keyStore.password" p = Some (VStr pwd).
Proof.
  destruct (@C7_emitted_client_keystore_path_is_never_written sample
              root_ca_config three_members) as [Hscenario _].
  split.
  - destruct (Hscenario (VBool true) (VStr "cp-kafka") (VStr "confluent")
                with_defaults (Material "" "" "" ""))
      as (w1 & pwd & cert & key & Hgen & _ & _ & _ & _ & _ & _ & _
          & Hraised & _);
      [reflexivity | reflexivity | reflexivity | reflexivity | reflexivity
      | apply sample_generator_populates
      | intros n; apply sample_passwords_nonempty
      | vm_compute; reflexivity | reflexivity |].
    rewrite Hgen. cbn [snd]. apply Hraised. reflexivity.
  - destruct (Hscenario (VBool true) (VStr "cp-kafka") (VStr "confluent")
                with_truststore_password (Material "" "" "" ""))
      as (w1 & pwd & cert & key & Hgen & _ & _ & _ & _ & _ & _ & Hhead
          & _ & Hrendered);
      [reflexivity | reflexivity | reflexivity | reflexivity | reflexivity
      | apply sample_generator_populates
      | intros n; apply sample_passwords_nonempty
      | vm_compute; reflexivity | reflexivity |].
    assert (Hw1 : w1 = (@_generate_keystores sample root_ca_config
                          with_truststore_password).2) by (by rewrite Hgen).
    destruct (@_render_zk_properties sample root_ca_config three_members w1)
      as [r w2] eqn:Hrun.
    assert (∃ p, r = Ok (Rendered p)) as [p ->].
    { pose proof Hrun as Hr. rewrite Hw1 in Hr. vm_compute in Hr.
      injection Hr as <- _. eauto. }
    destruct (Hrendered p w2 eq_refl)
      as (_ & _ & _ & Hpwd & _ & _ & Hloc & Hnone).
    exists w1, p, w2.
    split_and!; [exact Hgen | exact Hrun | exact Hloc | |].
    + rewrite Hnone; [reflexivity|]. vm_compute. discriminate.
    + exists pwd, cert, key. split; [exact Hhead | exact Hpwd].
Defined.

(** * The config-changed hook, step by step *)

Section HookSteps.
Context `{Collaborators}.
Implicit Types (cfg : gmap string value) (w : world) (cl : cluster).

(** X1. [_on_config_changed] reloads and then restarts the service exactly
    when it returns normally, once each and under the name chosen from the
    distribution (["confluent-zookeeper"], ["zookeeper"], or the name the
    attribute already held); an invocation that ends in an exception,
    wherever it is raised, has neither reloaded nor restarted it. *)
Theorem X1_service_restarted_only_on_success cfg cl w :
  match (_on_config_changed cfg cl w).1 with
  | Ok _ =>
      ∃ svc, service_name w = Some svc ∧
        service (_on_config_changed cfg cl w).2 = Some svc ∧
        service_calls (trace (_on_config_changed cfg cl w).2)
        = CallServiceRestart svc :: CallServiceReload svc
          :: service_calls (trace w)
  | Raise _ =>
      service_calls (trace (_on_config_changed cfg cl w).2)
      = service_calls (trace w)
  end.
Proof.
  rewrite on_config_changed_run.
  destruct (generate_keystores_same_service cfg
              (World (ks w) (service_name w) (seed w) (trace w)))
    as [Hs1 Hc1].
  cbn [service trace] in Hs1, Hc1.
  destruct (_generate_keystores cfg _) as [[[]|e] w1]; cbn [fst snd] in *;
    [|done].
  destruct (render_same_service cfg cl w1) as [Hs2 Hc2].
  destruct (_render_zk_properties cfg cl w1) as [[o|e] w2];
    cbn [fst snd] in *; [|congruence].
  destruct (service w2) as [svc|] eqn:Hsvc; cbn [fst snd].
  - exists svc. split; [congruence|]. split; [done|].
    unfold restarted, rendering_tail. cbn [trace app service_calls List.filter
      is_service_call]. fold (service_calls (trace w2)). congruence.
  - unfold rendering_tail. cbn [trace app service_calls List.filter
      is_service_call]. fold (service_calls (trace w2)). congruence.
Qed.

(** X2. When [_on_config_changed] returns normally, the last calls it made
    are, in this order: the rendering of the log4j properties (whose root
    logger is the option [log4j-root-logger], or
    ["INFO, stdout, zkAppender"] when the option is absent or empty), the
    service override file, the reload and the restart. While the cluster is
    not ready this still happens, although no [zookeeper.properties] has
    been emitted: the service is restarted on the configuration of an
    earlier run. *)
Theorem X2_restart_even_when_rendering_is_blocked cfg cl w w' :
  _on_config_changed cfg cl w = (Ok tt, w') →
  (∃ svc tr,
     trace w' = CallServiceRestart svc :: CallServiceReload svc
                :: CallRenderServiceOverrideFile
                :: CallRender "zookeeper_log4j.properties.j2"
                     "/etc/kafka/zookeeper-log4j.properties"
                     (cfg !! "user") (cfg !! "group")
                     (CtxRootLogger (root_logger cfg))
                :: tr) ∧
  (is_ready cl = false → same_emitted w w').
Proof.
  rewrite on_config_changed_run.
  pose proof (generate_keystores_same_emitted cfg
                (World (ks w) (service_name w) (seed w) (trace w))) as He1.
  unfold same_emitted in He1. cbn [trace] in He1.
  destruct (_generate_keystores cfg _) as [[[]|e] w1]; cbn [fst snd] in *;
    [|done].
  destruct (_render_zk_properties cfg cl w1) as [[o|e] w2] eqn:Hrender;
    [|done].
  destruct (service w2) as [svc|]; [|done]. intros [= <-]. split.
  - by eexists _, _.
  - intros Hready. rewrite render_not_ready in Hrender by done.
    pose proof (tls_props_same_emitted cfg w1) as He2.
    destruct (tls_props cfg w1) as [[p|e] w3]; [|done].
    injection Hrender as _ <-. cbn [snd] in He2.
    unfold same_emitted in *. cbn [restarted trace rendering_tail app
      emitted_configs String.eqb Ascii.eqb Bool.eqb]. 
    congruence.
Qed.

End HookSteps.

(** A bootstrapping unit without material: the hook returns, the service
    is restarted, and nothing was emitted. *)
Lemma X2_witness :
  ∃ w',
    @_on_config_changed sample (supplied_config "" "" "" "") bootstrapping
      (constructed (supplied_config "" "" "" "")) = (Ok tt, w') ∧
    head (trace w') = Some (CallServiceRestart "confluent-zookeeper") ∧
    same_emitted (constructed (supplied_config "" "" "" "")) w'.
Proof.
  destruct (@_on_config_changed sample (supplied_config "" "" "" "")
              bootstrapping (constructed (supplied_config "" "" "" "")))
    as [r w'] eqn:Hrun.
  assert (r = Ok tt) as ->.
  { pose proof Hrun as Hr. vm_compute in Hr. injection Hr as <- _.
    reflexivity. }
  exists w'. split; [reflexivity|].
  destruct (@X2_restart_even_when_rendering_is_blocked sample _ _ _ _ Hrun)
    as [(svc & tr & Htrace) Hsame].
  split.
  - pose proof Hrun as Hr. vm_compute in Hr. injection Hr as <-.
    reflexivity.
  - apply Hsame. reflexivity.
Defined.

(** * Edge cases of the rendering *)

Section RenderEdges.
Context `{Collaborators}.
Implicit Types (cfg : gmap string value) (w : world) (cl : cluster).

(** Reading the first entry of a YAML option leaves the world alone. *)
Lemma first_yaml_value_world cfg key w :
  (first_yaml_value cfg key w).2 = w.
Proof.
  unfold first_yaml_value, bind, config_item, lift, ret, raise.
  destruct (cfg !! key) as [raw|]; [|done].
  by destruct (yaml_safe_load raw) as [y|e].
Qed.

Lemma first_yaml_value_Ok_inv cfg key w v w' :
  first_yaml_value cfg key w = (Ok v, w') →
  first_yaml_value cfg key w = (Ok v, w) ∧ w' = w.
Proof.
  intros Hrun. pose proof (first_yaml_value_world cfg key w) as Hw.
  rewrite Hrun in Hw. cbn in Hw. by subst.
Qed.

(** The client-TLS branch, when it completes. *)
Lemma client_tls_props_Ok_inv cfg zk w p w' :
  client_tls_props cfg zk w = (Ok p, w') →
  ∃ ks_password ts_password cert,
    ks w !! "ks_password" = Some ks_password ∧
    ks w !! "ts_password" = Some ts_password ∧
    cfg !! "ssl_cert" = Some cert ∧
    client_tls_props cfg zk w
    = (Ok p, World (ks w) (service w) (seed w)
               (CallSetMTLSAuth cert
                  (config_get cfg "truststore-path"
                     (VStr "/var/ssl/private/zookeeper.truststore.jks"))
                  ts_password :: trace w)) ∧
    w' = World (ks w) (service w) (seed w)
           (CallSetMTLSAuth cert
              (config_get cfg "truststore-path"
                 (VStr "/var/ssl/private/zookeeper.truststore.jks"))
              ts_password :: trace w) ∧
    dict_get "dataDir" p = dict_get "dataDir" zk.
Proof.
  intros Hrun. pose proof Hrun as Hcopy.
  unfold client_tls_props in Hrun. cbv zeta in Hrun. py_inv.
  cbn [ks] in *. simplify_eq. eexists _, _, _. split_and!; [done..|].
  by rewrite !dict_get_set_ne by done.
Qed.

(** The quorum-TLS branch, when it completes. *)
Lemma quorum_tls_props_Ok_inv cfg zk w p w' :
  quorum_tls_props cfg zk w = (Ok p, w') →
  ∃ cert ts_pwd user group,
    (get_quorum_cert cfg w).1 = Ok cert ∧
    ks w !! "ts_zookeeper_pwd" = Some ts_pwd ∧
    cfg !! "user" = Some user ∧ cfg !! "group" = Some group ∧
    w' = World (ks w) (service w) (seed w)
           (CallSetSslKeypair cert (get_quorum_truststore cfg) ts_pwd
              user group :: trace w) ∧
    dict_get "dataDir" p = dict_get "dataDir" zk.
Proof.
  intros Hrun. unfold quorum_tls_props in Hrun. cbv zeta in Hrun.
  apply bind_Ok_inv in Hrun as (cert & w1 & Hcert & Hrun).
  pose proof (proj1 (getters_readonly cfg w)) as Hw.
  rewrite Hcert in Hw. cbn [snd] in Hw. subst w1.
  py_inv. cbn [ks] in *. simplify_eq. eexists cert, _, _, _.
  rewrite Hcert. split_and!; [done..|].
  by rewrite !dict_get_set_ne by done.
Qed.

(** The statements before the readiness check, when they complete. *)
Lemma tls_props_Ok_inv cfg w p w' :
  tls_props cfg w = (Ok p, w') →
  ∃ dd dl (client : bool) zk1 wc,
    first_yaml_value cfg "data-dir" w = (Ok dd, w) ∧
    first_yaml_value cfg "data-log-dir" w = (Ok dl, w) ∧
    andM (ks_nonempty "ssl_cert") (ks_nonempty "ssl_key") w = (Ok client, w) ∧
    (if client
     then client_tls_props cfg
            (dict_set "dataLogDir" dl (dict_set "dataDir" dd [])) w
          = (Ok zk1, wc)
     else zk1 = dict_set "clientPort" (config_get cfg "clientPort" (VInt 2182))
                  (dict_set "ssl.clientAuth" (VStr "none")
                     (dict_set "dataLogDir" dl (dict_set "dataDir" dd [])))
          ∧ wc = w) ∧
    (if truthy (config_get cfg "ssl_quorum" (VBool false))
     then quorum_tls_props cfg zk1 wc = (Ok p, w')
     else p = zk1 ∧ w' = wc).
Proof.
  intros Hrun. unfold tls_props in Hrun. cbv zeta in Hrun.
  apply bind_Ok_inv in Hrun as (dd & w1 & [Hdd ->]%first_yaml_value_Ok_inv
                                  & Hrun).
  apply bind_Ok_inv in Hrun as (zk0 & w2 & Hzk & Hrun).
  destruct (truthy (config_get cfg "zookeeper-properties" (VStr "")));
    [done|]. apply ret_inv in Hzk as [[= ->] ->].
  apply bind_Ok_inv in Hrun as (dl & w3 & [Hdl ->]%first_yaml_value_Ok_inv
                                  & Hrun).
  apply bind_Ok_inv in Hrun as (client & w4 & Hclient & Hrun).
  pose proof Hclient as [-> _]%both_nonempty_Ok_inv.
  apply bind_Ok_inv in Hrun as (zk1 & wc & Hbranch & Hrun).
  exists dd, dl, client, zk1, wc. split_and!; [done..| |].
  - destruct client; [done|]. by apply ret_inv in Hbranch as [[= ->] ->].
  - destruct (truthy (config_get cfg "ssl_quorum" (VBool false))); [done|].
    by apply ret_inv in Hrun as [[= ->] ->].
Qed.

(** The [dataDir] entry is the first value of the [data-dir] document. *)
Lemma tls_props_data_dir cfg w p w' :
  tls_props cfg w = (Ok p, w') →
  ∃ dd, first_yaml_value cfg "data-dir" w = (Ok dd, w) ∧
        dict_get "dataDir" p = Some dd.
Proof.
  intros (dd & dl & client & zk1 & wc & Hdd & _ & _ & Hclient & Hquorum)
    %tls_props_Ok_inv.
  exists dd. split; [done|].
  assert (dict_get "dataDir" zk1 = Some dd) as Hzk1.
  { destruct client.
    - apply client_tls_props_Ok_inv in Hclient
        as (? & ? & ? & _ & _ & _ & _ & _ & ->). reflexivity.
    - by destruct Hclient as [-> _]. }
  destruct (truthy (config_get cfg "ssl_quorum" (VBool false))).
  - apply quorum_tls_props_Ok_inv in Hquorum
      as (? & ? & ? & ? & _ & _ & _ & _ & _ & ->). done.
  - by destruct Hquorum as [-> _].
Qed.

(** X3. [_render_zk_properties] emits a configuration exactly when it
    reaches its last statement: the emitted properties are then the ones it
    built, and one file is written. An invocation that ends in an exception
    or at the readiness check has emitted nothing; no partial
    [zookeeper.properties] is ever written. *)
Theorem X3_emitted_exactly_when_rendered cfg cl w :
  emitted_configs (trace (_render_zk_properties cfg cl w).2)
  = match (_render_zk_properties cfg cl w).1 with
    | Ok (Rendered p) => p :: emitted_configs (trace w)
    | _ => emitted_configs (trace w)
    end.
Proof.
  pose proof (tls_props_same_emitted cfg w) as Hsame.
  unfold _render_zk_properties, bind.
  destruct (tls_props cfg w) as [[base|e] w1]; cbn [fst snd] in *; [|done].
  destruct (is_ready cl); cbn [negb]; [|done].
  unfold lift. destruct (add_servers (get_peers cl) base) as [p|e];
    cbn [fst snd]; [|done].
  unfold same_emitted in Hsame. cbn. by rewrite Hsame.
Qed.

(** X4. A non-empty [zookeeper-properties] option makes every rendering
    fail. The option is a string, [... or {}] keeps it, and the first item
    assignment raises [TypeError] as soon as its right-hand side (the
    [data-dir] option) has been read; the world is left as it was, and the
    config-changed hook ends in an exception whenever the option is set. *)
Theorem X4_zookeeper_properties_option_breaks_rendering cfg cl w :
  truthy (config_get cfg "zookeeper-properties" (VStr "")) = true →
  raised (_render_zk_properties cfg cl w) ∧
  (_render_zk_properties cfg cl w).2 = w ∧
  (∀ dd, first_yaml_value cfg "data-dir" w = (Ok dd, w) →
     _render_zk_properties cfg cl w
     = (Raise (TypeError "object does not support item assignment"), w)) ∧
  raised (_on_config_changed cfg cl w).
Proof.
  intros Hzk.
  assert (∀ w0, raised (_render_zk_properties cfg cl w0) ∧
                (_render_zk_properties cfg cl w0).2 = w0 ∧
                ∀ dd, first_yaml_value cfg "data-dir" w0 = (Ok dd, w0) →
                  _render_zk_properties cfg cl w0
                  = (Raise (TypeError "object does not support item assignment"),
                     w0)) as Hrender.
  { intros w0. unfold _render_zk_properties, tls_props. cbv zeta.
    rewrite Hzk. cbv [bind raise].
    pose proof (first_yaml_value_world cfg "data-dir" w0) as Hw.
    destruct (first_yaml_value cfg "data-dir" w0) as [[dd|e] w1];
      cbn [snd] in Hw; subst w1.
    - split_and!; [done | done |]. by intros ? _.
    - split_and!; [done | done |]. by intros ? [=]. }
  destruct (Hrender w) as (? & ? & ?). split_and!; [done..|].
  rewrite on_config_changed_run.
  destruct (_generate_keystores cfg _) as [[[]|e] w1]; [|done].
  destruct (Hrender w1) as (Hraised & _).
  by destruct (_render_zk_properties cfg cl w1) as [[o|e] w2].
Qed.

(** X5. The rendering reads [data-dir] first. A missing option raises
    [KeyError]; a document that [yaml.safe_load] rejects raises the
    loader's exception; a document that is not a mapping raises
    [AttributeError] (no [items]); an empty mapping raises [IndexError].
    Each of them leaves the world as it was. Of a mapping with several
    entries only the first one is used: its value is the [dataDir] of every
    configuration rendered. *)
Theorem X5_data_dir_edge_cases cfg cl w :
  (cfg !! "data-dir" = None →
   _render_zk_properties cfg cl w = (Raise (KeyError "data-dir"), w)) ∧
  (∀ raw,
     cfg !! "data-dir" = Some raw →
     match yaml_safe_load raw with
     | Raise e => _render_zk_properties cfg cl w = (Raise e, w)
     | Ok YOther =>
         _render_zk_properties cfg cl w = (Raise (AttributeError "items"), w)
     | Ok (YMap []) => _render_zk_properties cfg cl w = (Raise IndexError, w)
     | Ok (YMap ((_, v) :: _)) =>
         ∀ p w', _render_zk_properties cfg cl w = (Ok (Rendered p), w') →
                 dict_get "dataDir" p = Some v
     end).
Proof.
  split.
  - intros Hdd. unfold _render_zk_properties, tls_props, first_yaml_value.
    by py_eval.
  - intros raw Hdd.
    destruct (yaml_safe_load raw) as [[[|[k v] rest]|]|e] eqn:Hy.
    + unfold _render_zk_properties, tls_props, first_yaml_value. py_eval.
      rewrite ?Hy. cbn [first_item_value]. by py_eval.
    + intros p w' (base & w1 & Hbase & Hkeys)%render_other_keys.
      rewrite Hkeys by done.
      apply tls_props_data_dir in Hbase as (dd & Hdd' & ->).
      unfold first_yaml_value in Hdd'. revert Hdd'. py_eval.
      cbn [first_item_value]. by intros [= ->].
    + unfold _render_zk_properties, tls_props, first_yaml_value. py_eval.
      rewrite ?Hy. cbn [first_item_value]. by py_eval.
    + unfold _render_zk_properties, tls_props, first_yaml_value. py_eval.
      rewrite ?Hy. cbn [first_item_value]. by py_eval.
Qed.

(** The rendering, when it returns: the statements before the readiness
    check completed, and only a call to [render] may follow them. *)
Lemma render_Ok_inv cfg cl w o w' :
  _render_zk_properties cfg cl w = (Ok o, w') →
  ∃ base w1, tls_props cfg w = (Ok base, w1) ∧
    announcements (trace w') = announcements (trace w1).
Proof.
  intros Hrun. unfold _render_zk_properties in Hrun.
  apply bind_Ok_inv in Hrun as (base & w1 & Hbase & Hrun).
  exists base, w1. split; [done|].
  destruct (is_ready cl); cbn [negb] in Hrun.
  - py_inv. reflexivity.
  - by apply ret_inv in Hrun as [_ ->].
Qed.

(** X6. What [_render_zk_properties] publishes on the relations, and when.
    It announces client TLS exactly when the stored client certificate and
    key are both non-empty, passing the [ssl_cert] option as configured
    (not what [get_ssl_cert] returns) with the client truststore path and
    the stored [ts_password]; then it announces the quorum keypair exactly
    when [ssl_quorum] is set, passing [get_quorum_cert()], the quorum
    truststore path and the stored [ts_zookeeper_pwd]. Both announcements
    are made before the readiness check: an invocation that ends at
    "Waiting for cluster to bootstrap" has made them as well. *)
Theorem X6_announcements_precede_the_readiness_check cfg cl w o w' sc sk :
  _render_zk_properties cfg cl w = (Ok o, w') →
  ks w !! "ssl_cert" = Some sc → ks w !! "ssl_key" = Some sk →
  ∃ client quorum,
    announcements (trace w')
    = (quorum ++ client ++ announcements (trace w))%list ∧
    (if complete sc sk
     then ∃ cert ts_password,
            cfg !! "ssl_cert" = Some cert ∧
            ks w !! "ts_password" = Some ts_password ∧
            client = [CallSetMTLSAuth cert
                        (config_get cfg "truststore-path"
                           (VStr "/var/ssl/private/zookeeper.truststore.jks"))
                        ts_password]
     else client = []) ∧
    (if truthy (config_get cfg "ssl_quorum" (VBool false))
     then ∃ cert ts_pwd user group,
            (get_quorum_cert cfg w).1 = Ok cert ∧
            ks w !! "ts_zookeeper_pwd" = Some ts_pwd ∧
            cfg !! "user" = Some user ∧ cfg !! "group" = Some group ∧
            quorum = [CallSetSslKeypair cert (get_quorum_truststore cfg)
                        ts_pwd user group]
     else quorum = []).
Proof.
  intros (base & w1 & Hbase & ->)%render_Ok_inv Hsc Hsk.
  apply tls_props_Ok_inv in Hbase
    as (dd & dl & client & zk1 & wc & _ & _ & Hc & Hclient & Hquorum).
  rewrite (both_nonempty_run _ _ _ _ _ Hsc Hsk) in Hc.
  injection Hc as <-.
  assert (∃ cl_calls,
            ks wc = ks w ∧
            announcements (trace wc)
            = (cl_calls ++ announcements (trace w))%list ∧
            if complete sc sk
            then ∃ cert ts_password,
                   cfg !! "ssl_cert" = Some cert ∧
                   ks w !! "ts_password" = Some ts_password ∧
                   cl_calls
                   = [CallSetMTLSAuth cert
                        (config_get cfg "truststore-path"
                           (VStr "/var/ssl/private/zookeeper.truststore.jks"))
                        ts_password]
            else cl_calls = []) as (cl_calls & Hks & Hann & Hcl).
  { destruct (complete sc sk).
    - apply client_tls_props_Ok_inv in Hclient
        as (ksp & tsp & cert & _ & Hts & Hcert & _ & -> & _).
      exists [CallSetMTLSAuth cert
                (config_get cfg "truststore-path"
                   (VStr "/var/ssl/private/zookeeper.truststore.jks")) tsp].
      split; [done|]. split; [reflexivity|]. by eexists _, _.
    - destruct Hclient as [_ ->]. by exists []. }
  exists cl_calls.
  destruct (truthy (config_get cfg "ssl_quorum" (VBool false))).
  - apply quorum_tls_props_Ok_inv in Hquorum
      as (cert & ts_pwd & user & group & Hcert & Hts & Hu & Hg & -> & _).
    exists [CallSetSslKeypair cert (get_quorum_truststore cfg) ts_pwd
              user group].
    split_and!; [| done |].
    + cbn [trace announcements List.filter is_announcement app].
      fold (announcements (trace wc)). rewrite Hann. reflexivity.
    + exists cert, ts_pwd, user, group. split_and!; try done.
      * destruct (getters_determined cfg) as (Hdet & _).
        destruct (Hdet wc w Hks) as [<- _]. done.
      * by rewrite <-Hks.
  - destruct Hquorum as [_ ->]. exists []. by split_and!.
Qed.

(** X7. Rendering never writes to the stored state and draws no random
    value, however it ends; it leaves [self.service] alone and only adds
    calls to the ones already made. What it returns from the world it
    leaves is what it returned the first time. *)
Theorem X7_rendering_leaves_the_stored_state_alone cfg cl w :
  same_store w (_render_zk_properties cfg cl w).2 ∧
  service (_render_zk_properties cfg cl w).2 = service w ∧
  fields_kept w (_render_zk_properties cfg cl w).2 ∧
  (_render_zk_properties cfg cl (_render_zk_properties cfg cl w).2).1
  = (_render_zk_properties cfg cl w).1.
Proof.
  pose proof (render_same_store cfg cl w) as [Hks Hseed].
  split_and!.
  - by split.
  - apply render_same_service.
  - intros attr. by rewrite Hks.
  - apply render_twice.
Qed.

End RenderEdges.

(** A unit whose configuration carries extra properties: rendering raises
    [TypeError] and the hook fails. *)
Lemma X4_witness :
  let cfg := with_zookeeper_properties (supplied_config "" "" "" "") in
  @_render_zk_properties sample cfg three_members (constructed cfg)
  = (Raise (TypeError "object does not support item assignment"),
     constructed cfg) ∧
  raised (@_on_config_changed sample cfg three_members (constructed cfg)).
Proof.
  destruct (@X4_zookeeper_properties_option_breaks_rendering sample
              (with_zookeeper_properties (supplied_config "" "" "" ""))
              three_members
              (constructed
                 (with_zookeeper_properties (supplied_config "" "" "" ""))))
    as (_ & _ & Htype & Hhook); [reflexivity|].
  split; [|exact Hhook].
  apply (Htype (VStr "/var/lib/zookeeper")). vm_compute. reflexivity.
Defined.

(** A configuration without [data-dir], and the sample document whose
    only entry is [/var/lib/zookeeper]. *)
Lemma X5_witness :
  let cfg := supplied_config "" "" "" "" in
  @_render_zk_properties sample (delete "data-dir" cfg) three_members
    (constructed cfg)
  = (Raise (KeyError "data-dir"), constructed cfg) ∧
  ∃ p w', @_render_zk_properties sample cfg three_members (constructed cfg)
          = (Ok (Rendered p), w') ∧
          dict_get "dataDir" p = Some (VStr "/var/lib/zookeeper").
Proof.
  split.
  - apply (@X5_data_dir_edge_cases sample). reflexivity.
  - destruct (@_render_zk_properties sample (supplied_config "" "" "" "")
                three_members (constructed (supplied_config "" "" "" "")))
      as [r w'] eqn:Hrun.
    assert (∃ p, r = Ok (Rendered p)) as [p ->].
    { pose proof Hrun as Hr. vm_compute in Hr. injection Hr as <- _. eauto. }
    exists p, w'. split; [reflexivity|].
    pose proof (proj2 (@X5_data_dir_edge_cases sample
                         (supplied_config "" "" "" "") three_members
                         (constructed (supplied_config "" "" "" "")))
                  (VStr "ext4: /var/lib/zookeeper") eq_refl) as Hfirst.
    exact (Hfirst p w' Hrun).
Defined.

(** A bootstrapping unit with quorum TLS switched on: the invocation ends
    at the readiness check, and the quorum keypair has been announced. *)
Lemma X6_witness :
  let cfg := with_ssl_quorum (supplied_config "QQ==" "Qg==" "" "") in
  ∃ w',
    @_render_zk_properties sample cfg bootstrapping (constructed cfg)
    = (Ok (Blocked "Waiting for cluster to bootstrap"), w') ∧
    announcements (trace (constructed cfg)) = [] ∧
    announcements (trace w')
    = [CallSetSslKeypair "A" (VStr "/var/ssl/private,kafka_quorum_ts.jks")
         "" (VStr "cp-kafka") (VStr "confluent")].
Proof.
  cbv zeta.
  destruct (@_render_zk_properties sample
              (with_ssl_quorum (supplied_config "QQ==" "Qg==" "" ""))
              bootstrapping
              (constructed
                 (with_ssl_quorum (supplied_config "QQ==" "Qg==" "" ""))))
    as [r w'] eqn:Hrun.
  assert (r = Ok (Blocked "Waiting for cluster to bootstrap")) as ->.
  { pose proof Hrun as Hr. vm_compute in Hr. injection Hr as <- _.
    reflexivity. }
  exists w'. split; [reflexivity|]. split; [reflexivity|].
  destruct (@X6_announcements_precede_the_readiness_check sample _ _ _ _ _
              "" "" Hrun)
    as (client & quorum & -> & Hclient & Hquorum);
    [vm_compute; reflexivity..|].
  cbn in Hclient. subst client.
  change (truthy _) with true in Hquorum.
  destruct Hquorum as (cert & ts_pwd & user & group & Hcert & Hts & Hu & Hg
                       & ->).
  vm_compute in Hcert, Hts, Hu, Hg.
  injection Hcert as <-. injection Hts as <-.
  injection Hu as <-. injection Hg as <-.
  vm_compute. reflexivity.
Defined.

(** * Edge cases of the key material handling *)

Section GenerateEdges.
Context `{Collaborators}.
Implicit Types (cfg : gmap string value) (w : world) (cl : cluster)
  (m : material).

(** ** Stored fields stay *)

Lemma fields_kept_refl w : fields_kept w w.
Proof. by intros attr. Qed.

Lemma fields_kept_trans w1 w2 w3 :
  fields_kept w1 w2 → fields_kept w2 w3 → fields_kept w1 w3.
Proof. intros H12 H23 attr ?. by apply H23, H12. Qed.

Lemma fields_kept_insert attr s w :
  fields_kept w (World (<[attr := s]> (ks w)) (service w) (seed w) (trace w)).
Proof.
  intros a Ha. cbn [ks]. destruct (decide (a = attr)) as [->|Hne].
  - rewrite lookup_insert_eq. eauto.
  - by rewrite lookup_insert_ne.
Qed.

Ltac fields_kept_steps :=
  frame_auto; first [apply fields_kept_insert | by intros ?].

Lemma generate_keystores_fields_kept cfg :
  frame fields_kept (_generate_keystores cfg).
Proof.
  pose proof fields_kept_refl. pose proof fields_kept_trans.
  destruct (frame_getters fields_kept cfg) as (? & ? & ? & ?); [done..|].
  unfold _generate_keystores, already_generated, generate_root_cas,
    certificates_remain_the_same, store_supplied_material,
    quorum_keystore_block, client_keystore_block, build_keystore,
    self_signed, gen_password, ks_same.
  fields_kept_steps.
Qed.

Lemma on_config_changed_fields_kept cfg cl :
  frame fields_kept (_on_config_changed cfg cl).
Proof.
  pose proof fields_kept_refl. pose proof fields_kept_trans.
  pose proof (generate_keystores_fields_kept cfg).
  assert (frame fields_kept (_render_zk_properties cfg cl)).
  { intros w attr. by rewrite (proj1 (render_same_store cfg cl w)). }
  unfold _on_config_changed, _render_zk_log4j_properties, _check_if_ready.
  fields_kept_steps.
Qed.

Lemma init_fields_kept cfg : frame fields_kept (__init__ cfg).
Proof.
  pose proof fields_kept_refl. pose proof fields_kept_trans.
  pose proof (generate_keystores_fields_kept cfg).
  unfold __init__. fields_kept_steps.
Qed.

Lemma ks_set_default_present attr s w :
  is_Some (ks (ks_set_default attr s w).2 !! attr).
Proof.
  unfold ks_set_default, ks_set.
  destruct (ks w !! attr) eqn:Hl; cbn [snd ks].
  - rewrite Hl. eauto.
  - rewrite lookup_insert_eq. eauto.
Qed.

Lemma ks_set_default_kept attr s w :
  fields_kept w (ks_set_default attr s w).2.
Proof.
  unfold ks_set_default, ks_set. destruct (ks w !! attr); cbn [snd].
  - apply fields_kept_refl.
  - apply fields_kept_insert.
Qed.

(** The world in which the constructor starts [_generate_keystores]. *)
Lemma init_run cfg w :
  ∃ w6,
    __init__ cfg w
    = _generate_keystores cfg
        (World (ks w6) (service w) (seed w)
           (CallMakedirs "/var/ssl/private" :: trace w)) ∧
    fields_kept w w6 ∧
    (∀ attr, is_Some (ks w !! attr) → ks w6 !! attr = ks w !! attr) ∧
    (∀ attr, ks w !! attr = None →
       attr ∈ ["quorum_cert"; "quorum_key"; "ssl_cert"; "ssl_key";
               "ts_zookeeper_pwd"; "ks_zookeeper_pwd"] →
       ks w6 !! attr = Some "") ∧
    Forall (λ attr, is_Some (ks w6 !! attr))
      ["quorum_cert"; "quorum_key"; "ssl_cert"; "ssl_key";
       "ts_zookeeper_pwd"; "ks_zookeeper_pwd"].
Proof.
  unfold __init__. rewrite !bind_ks_set_default.
  set (w1 := (ks_set_default "quorum_cert" "" w).2).
  set (w2 := (ks_set_default "quorum_key" "" w1).2).
  set (w3 := (ks_set_default "ssl_cert" "" w2).2).
  set (w4 := (ks_set_default "ssl_key" "" w3).2).
  set (w5 := (ks_set_default "ts_zookeeper_pwd" "" w4).2).
  set (w6 := (ks_set_default "ks_zookeeper_pwd" "" w5).2).
  assert (∀ attr s w0,
            service (ks_set_default attr s w0).2 = service w0 ∧
            seed (ks_set_default attr s w0).2 = seed w0 ∧
            trace (ks_set_default attr s w0).2 = trace w0) as Hsame.
  { intros attr s w0. unfold ks_set_default, ks_set.
    by destruct (ks w0 !! attr). }
  assert (∀ attr s w0 a,
            ks (ks_set_default attr s w0).2 !! a
            = match ks w0 !! a with
              | Some v => Some v
              | None => if decide (a = attr) then Some s else None
              end) as Hlook.
  { intros attr s w0 a. unfold ks_set_default, ks_set.
    destruct (decide (a = attr)) as [->|Hne].
    - destruct (ks w0 !! attr) eqn:Hl; cbn [snd ks]; [by rewrite Hl|].
      by rewrite lookup_insert_eq.
    - destruct (ks w0 !! attr) eqn:Hl; cbn [snd ks].
      + by destruct (ks w0 !! a).
      + rewrite lookup_insert_ne by done. by destruct (ks w0 !! a). }
  exists w6. split_and!.
  - unfold bind at 1. cbn [call]. do 2 f_equal.
    + unfold w6, w5, w4, w3, w2, w1.
      by rewrite !(proj1 (Hsame _ _ _)).
    + unfold w6, w5, w4, w3, w2, w1.
      by rewrite !(proj1 (proj2 (Hsame _ _ _))).
    + unfold w6, w5, w4, w3, w2, w1.
      by rewrite !(proj2 (proj2 (Hsame _ _ _))).
  - repeat (eapply fields_kept_trans; [|apply ks_set_default_kept]).
    apply fields_kept_refl.
  - intros attr [v Hv]. unfold w6, w5, w4, w3, w2, w1.
    rewrite !Hlook, Hv. done.
  - intros attr Hnone Hin. unfold w6, w5, w4, w3, w2, w1.
    rewrite !Hlook, Hnone.
    rewrite !elem_of_cons, elem_of_nil in Hin.
    destruct Hin as [->|[->|[->|[->|[->|[->|[]]]]]]]; reflexivity.
  - repeat apply Forall_cons_2; [..|apply Forall_nil_2];
      unfold w6, w5, w4, w3, w2, w1; rewrite !Hlook;
      repeat match goal with
             | |- context [ks w !! ?a] => destruct (ks w !! a)
             end; cbn; eauto.
Qed.

(** X8. The charm never removes a field from its stored state: whatever is
    stored before the constructor, [_generate_keystores] or the
    config-changed hook runs is still stored afterwards, however the run
    ends. Once the constructor has run, the four material fields and the
    two password fields it gives defaults to are all stored, even when its
    call of [_generate_keystores] ended in an exception; reading them in a
    later hook cannot raise [AttributeError]. *)
Theorem X8_stored_fields_are_never_removed cfg cl w :
  fields_kept w (__init__ cfg w).2 ∧
  fields_kept w (_generate_keystores cfg w).2 ∧
  fields_kept w (_on_config_changed cfg cl w).2 ∧
  Forall (λ attr, is_Some (ks (__init__ cfg w).2 !! attr))
    ["quorum_cert"; "quorum_key"; "ssl_cert"; "ssl_key";
     "ts_zookeeper_pwd"; "ks_zookeeper_pwd"] ∧
  is_Some (stored_material (__init__ cfg w).2).
Proof.
  assert (Forall (λ attr, is_Some (ks (__init__ cfg w).2 !! attr))
            ["quorum_cert"; "quorum_key"; "ssl_cert"; "ssl_key";
             "ts_zookeeper_pwd"; "ks_zookeeper_pwd"]) as Hall.
  { destruct (init_run cfg w) as (w6 & -> & _ & _ & _ & Hall).
    eapply Forall_impl; [exact Hall|]. intros attr Hattr.
    by apply (generate_keystores_fields_kept cfg
                (World (ks w6) (service w) (seed w)
                   (CallMakedirs "/var/ssl/private" :: trace w))). }
  split_and!.
  - apply init_fields_kept.
  - apply generate_keystores_fields_kept.
  - apply on_config_changed_fields_kept.
  - exact Hall.
  - rewrite !Forall_cons in Hall.
    destruct Hall as ([qc Hqc] & [qk Hqk] & [sc Hsc] & [sk Hsk] & _).
    exists (Material qc qk sc sk). by apply stored_material_intro.
Qed.

End GenerateEdges.

(** * Failures half-way through [_generate_keystores] *)

Section Failures.
Context `{Collaborators}.
Implicit Types (cfg : gmap string value) (w : world) (cl : cluster)
  (m : material).




End Failures.


(** * A client key that does not decode *)

Section Decode.
Context `{Collaborators}.
Implicit Types (cfg : gmap string value) (w : world) (m : material).



End Decode.

